(** * Secret-santa game server: session state machine and event router

    A shallow embedding of [src/app.py]: the [Game] class, the in-memory
    registry [games] and the Socket.IO event handlers, followed by the
    properties of the specification that were checked against them.

    Modelling conventions.
    - A Python [dict] keeps its keys in insertion order and the code
      depends on that order ([make_guess] stops at the first matching
      assignment, [sorted] is stable, [handle_disconnect] stops at the
      first room of the connection), so a dict is an association list
      in insertion order ([PyDict]).
    - [str] values (connection ids, room codes, display names) are
      [string]; payload fields are taken to be strings.
    - [datetime.now()] is an input: every operation reading the clock
      takes the reading [now] as an argument (an integer count of
      microseconds).
    - [emit], [join_room] are recorded as a list of outbound [action]s.
    - An uncaught Python exception is an explicit [raised] field of the
      handler's [reply]. *)

From Stdlib Require Import List String Ascii ZArith Arith Bool Lia.
From Stdlib Require Import Sorted Permutation.
Import ListNotations.
Open Scope string_scope.
Open Scope list_scope.
Open Scope nat_scope.

(** ** Python dictionaries with string keys *)

Module PyDict.

Section Dict.
Context {V : Type}.

Definition dict := list (string * V).

(** [d.get(k)] / [d[k]]; [None] is the [KeyError] case of [d[k]]. *)
Fixpoint get (k : string) (d : dict) : option V :=
  match d with
  | [] => None
  | (k', v) :: r => if String.eqb k k' then Some v else get k r
  end.

(** [k in d] *)
Definition mem (k : string) (d : dict) : bool :=
  match get k d with Some _ => true | None => false end.

(** [d[k] = v]: an existing key keeps its position, a new key goes last. *)
Fixpoint set (k : string) (v : V) (d : dict) : dict :=
  match d with
  | [] => [(k, v)]
  | (k', v') :: r =>
      if String.eqb k k' then (k, v) :: r else (k', v') :: set k v r
  end.

(** [del d[k]]: the entry under [k] is dropped (a dict holds at most one,
    see [wf]) and the other entries keep their order.  Every [del] of
    the source is guarded by [k in d], so the absent-key case (a
    [KeyError] in Python) is never reached; it is modelled as a no-op. *)
Fixpoint del (k : string) (d : dict) : dict :=
  match d with
  | [] => []
  | (k', v') :: r =>
      if String.eqb k k' then del k r else (k', v') :: del k r
  end.

Definition len (d : dict) : nat := List.length d.
Definition keys (d : dict) : list string := map fst d.
Definition values (d : dict) : list V := map snd d.
Definition items (d : dict) : list (string * V) := d.

(** The representation invariant of a dict: keys are pairwise distinct. *)
Definition wf (d : dict) : Prop := NoDup (keys d).

End Dict.

Arguments dict V : clear implicits.

End PyDict.

(** ** Strings: [str.upper] and the room-code generator *)

(** [str.upper()] on the ASCII range: [a]..[z] go to [A]..[Z], every
    other character is kept. *)
Definition upper_ascii (c : ascii) : ascii :=
  let n := nat_of_ascii c in
  if ((97 <=? n) && (n <=? 122))%nat then ascii_of_nat (n - 32) else c.

Fixpoint upper (s : string) : string :=
  match s with
  | EmptyString => EmptyString
  | String c r => String (upper_ascii c) (upper r)
  end.

(** [string.ascii_uppercase + string.digits] *)
Definition code_alphabet : string := "ABCDEFGHIJKLMNOPQRSTUVWXYZ0123456789".

(** [secrets.choice(seq)] is [seq[randbelow(len(seq))]]; [r] is the
    number delivered by the random source. *)
Definition choice (seq : string) (r : nat) : ascii :=
  match String.get (r mod String.length seq) seq with
  | Some c => c
  | None => Ascii.zero
  end.

(** [generate_code()]: six characters, the [i]-th one chosen with the
    [i]-th number [rnd i] of the random source. *)
Definition generate_code (rnd : nat -> nat) : string :=
  string_of_list_ascii
    (map (fun i => choice code_alphabet (rnd i)) (seq 0 6)).

(** ** The [Game] class *)

(** A value of [Game.players]: [{'name': ..., 'joined_at': ...}]. *)
Record player_info := { name : string; joined_at : Z }.

(** A value of [Game.completed]:
    [{'timestamp': ..., 'guess_count': ..., 'santa': ...}]. *)
Record completion := { timestamp : Z; guess_count : nat; santa : string }.

Record Game := {
  host_id : string;
  players : PyDict.dict player_info;
  assignments : PyDict.dict string;
  guesses : PyDict.dict (list string);
  completed : PyDict.dict completion;
  started : bool
}.

Definition with_players (g : Game) (p : PyDict.dict player_info) : Game :=
  {| host_id := host_id g; players := p; assignments := assignments g;
     guesses := guesses g; completed := completed g; started := started g |}.

Definition with_assignments (g : Game) (a : PyDict.dict string) : Game :=
  {| host_id := host_id g; players := players g; assignments := a;
     guesses := guesses g; completed := completed g; started := started g |}.

Definition with_guesses (g : Game) (q : PyDict.dict (list string)) : Game :=
  {| host_id := host_id g; players := players g; assignments := assignments g;
     guesses := q; completed := completed g; started := started g |}.

Definition with_completed (g : Game) (c : PyDict.dict completion) : Game :=
  {| host_id := host_id g; players := players g; assignments := assignments g;
     guesses := guesses g; completed := c; started := started g |}.

Definition with_started (g : Game) (b : bool) : Game :=
  {| host_id := host_id g; players := players g; assignments := assignments g;
     guesses := guesses g; completed := completed g; started := b |}.

(** [Game.__init__] *)
Definition new_game (host : string) : Game :=
  {| host_id := host; players := []; assignments := []; guesses := [];
     completed := []; started := false |}.

(** [Game.add_player] *)
Definition add_player (g : Game) (sid player_name : string) (now : Z) : Game :=
  let g1 :=
    with_players g
      (PyDict.set sid {| name := player_name; joined_at := now |} (players g)) in
  with_guesses g1 (PyDict.set player_name [] (guesses g1)).

(** [Game.remove_player] *)
Definition remove_player (g : Game) (sid : string) : Game :=
  match PyDict.get sid (players g) with
  | None => g
  | Some info =>
      let player_name := name info in
      let g1 := with_players g (PyDict.del sid (players g)) in
      let g2 :=
        if PyDict.mem player_name (guesses g1)
        then with_guesses g1 (PyDict.del player_name (guesses g1)) else g1 in
      let g3 :=
        if PyDict.mem player_name (assignments g2)
        then with_assignments g2 (PyDict.del player_name (assignments g2))
        else g2 in
      if PyDict.mem player_name (completed g3)
      then with_completed g3 (PyDict.del player_name (completed g3)) else g3
  end.

(** [Game.set_assignment] *)
Definition set_assignment (g : Game) (player_name got_name : string) : Game :=
  with_assignments g (PyDict.set player_name got_name (assignments g)).

(** Python exceptions that the modelled code can let escape. *)
Inductive py_exn := KeyError (key : string).

Inductive result (A : Type) :=
| Return (a : A)
| Raise (e : py_exn).
Arguments Return {A} a.
Arguments Raise {A} e.

(** The loop of [make_guess] that looks for the actual santa: the key of
    the first item, in insertion order, whose value is [player_name];
    [None] when the loop ends without a [break]. *)
Fixpoint find_santa (its : list (string * string)) (player_name : string)
  : option string :=
  match its with
  | [] => None
  | (santa_name, recipient) :: rest =>
      if String.eqb recipient player_name then Some santa_name
      else find_santa rest player_name
  end.

(** [actual_santa == guessed_santa], where [actual_santa] may be [None]
    and [guessed_santa] is a [str]. *)
Definition santa_eqb (actual_santa : option string) (guessed_santa : string)
  : bool :=
  match actual_santa with
  | Some s => String.eqb s guessed_santa
  | None => false
  end.

(** [Game.make_guess].  [self.guesses[player_name]] raises [KeyError]
    before anything is changed when the name has no guess list; [log']
    is that list after [append], and it is the list whose [len] is
    stored as [guess_count]. *)
Definition make_guess (g : Game) (player_name guessed_santa : string) (now : Z)
  : result (Game * bool) :=
  match PyDict.get player_name (guesses g) with
  | None => Raise (KeyError player_name)
  | Some log =>
      let log' := log ++ [guessed_santa] in
      let g1 := with_guesses g (PyDict.set player_name log' (guesses g)) in
      let actual_santa :=
        find_santa (PyDict.items (assignments g1)) player_name in
      match actual_santa with
      | Some s =>
          if santa_eqb actual_santa guessed_santa then
            Return
              (with_completed g1
                 (PyDict.set player_name
                    {| timestamp := now; guess_count := List.length log';
                       santa := s |}
                    (completed g1)),
               true)
          else Return (g1, false)
      | None => Return (g1, false)
      end
  end.

(** [sorted(..., key=...)] with keys [(guess_count, timestamp)]: tuples
    compare lexicographically. *)
Definition key_lt (a b : nat * Z) : bool :=
  (fst a <? fst b)%nat || ((fst a =? fst b)%nat && (snd a <? snd b)%Z).

Section Sorted.
Context {A : Type} (key : A -> nat * Z).

(** [x] is placed after the elements whose key is strictly smaller and
    before every other one. *)
Fixpoint insert_by (x : A) (l : list A) : list A :=
  match l with
  | [] => [x]
  | y :: r =>
      if key_lt (key y) (key x) then y :: insert_by x r else x :: y :: r
  end.

(** [sorted] is a stable sort; a stable sort has one possible output,
    the one that this insertion sort computes. *)
Fixpoint sorted (l : list A) : list A :=
  match l with
  | [] => []
  | x :: r => insert_by x (sorted r)
  end.

(** [x] comes no later than [y] in the key order. *)
Definition key_le (x y : A) : Prop := key_lt (key y) (key x) = false.

End Sorted.

(** [enumerate(l)], counting from [i]. *)
Fixpoint enumerate_from {A : Type} (i : nat) (l : list A) : list (nat * A) :=
  match l with
  | [] => []
  | x :: r => (i, x) :: enumerate_from (S i) r
  end.

(** A row of the leaderboard:
    [{'rank': ..., 'player': ..., 'guesses': ..., 'santa': ...}]. *)
Record leaderboard_row := {
  rank : nat;
  player : string;
  row_guesses : nat;
  row_santa : string
}.

(** The sort key of [get_leaderboard]:
    [lambda x: (x[1]['guess_count'], x[1]['timestamp'])]. *)
Definition completion_key (x : string * completion) : nat * Z :=
  (guess_count (snd x), timestamp (snd x)).

Definition sorted_completed (g : Game) : list (string * completion) :=
  sorted completion_key (PyDict.items (completed g)).

Definition leaderboard_row_of (x : nat * (string * completion))
  : leaderboard_row :=
  let '(i, (player_name, data)) := x in
  {| rank := i + 1; player := player_name;
     row_guesses := guess_count data; row_santa := santa data |}.

(** [Game.get_leaderboard] *)
Definition get_leaderboard (g : Game) : list leaderboard_row :=
  map leaderboard_row_of (enumerate_from 0 (sorted_completed g)).

(** [Game.is_complete] *)
Definition is_complete (g : Game) : bool :=
  match players g with
  | [] => false
  | _ :: _ => (PyDict.len (completed g) =? PyDict.len (players g))%nat
  end.

(** ** The event router *)

(** The module-level [games] dict: room code to [Game]. *)
Definition registry := PyDict.dict Game.

(** Outbound events with their payloads. *)
Inductive message :=
| game_created (room_code : string)
| error (msg : string)
| joined_game (room_code player_name : string)
| player_list_update (player_list : list string) (count : nat)
| assignment_submitted (player_name : string) (total submitted : nat)
    (all_ready : bool)
| game_started (msg : string)
| guess_result (correct : bool) (guessed : string) (attempts : nat)
| player_completed (player_name santa_name : string) (attempts rk : nat)
| leaderboard_update (leaderboard : list leaderboard_row)
    (game_complete : bool)
| game_state (player_list : list string) (is_started : bool)
    (leaderboard : list leaderboard_row) (game_complete : bool)
| player_disconnected (player_name : string).

(** [emit(...)] without [room=] answers the requesting connection;
    [emit(..., room=code)] goes to every connection of the room. *)
Inductive audience :=
| ToRequester (sid : string)
| ToRoom (room_code : string).

(** What a handler asks of the transport layer. *)
Inductive action :=
| Emit (to : audience) (m : message)
| JoinRoom (sid room_code : string).

(** The effect of one handler call: the registry it leaves, the actions
    it performed in order, and the exception that ended it, if any. *)
Record reply := {
  games_after : registry;
  emitted : list action;
  raised : option py_exn
}.

Definition finish (games : registry) (acts : list action) : reply :=
  {| games_after := games; emitted := acts; raised := None |}.

(** [emit('error', {'message': msg}); return] *)
Definition fail_with (games : registry) (sid msg : string) : reply :=
  finish games [Emit (ToRequester sid) (error msg)].

(** [[p['name'] for p in game.players.values()]] *)
Definition player_names (g : Game) : list string :=
  map name (PyDict.values (players g)).

(** The [while room_code in games] loop of [handle_create_game];
    [draws] holds the successive outputs of the random source, one per
    call of [generate_code].  [None]: every draw collided, the loop is
    still running. *)
Fixpoint fresh_code (games : registry) (draws : list (nat -> nat))
  : option string :=
  match draws with
  | [] => None
  | rnd :: rest =>
      let room_code := generate_code rnd in
      if PyDict.mem room_code games then fresh_code games rest
      else Some room_code
  end.

(** [handle_create_game]; nothing in the body of its [try] raises. *)
Definition handle_create_game (games : registry) (sid : string)
    (draws : list (nat -> nat)) : option reply :=
  match fresh_code games draws with
  | None => None
  | Some room_code =>
      Some (finish (PyDict.set room_code (new_game sid) games)
              [JoinRoom sid room_code;
               Emit (ToRequester sid) (game_created room_code)])
  end.

(** The duplicate-name loop of [handle_join_game]. *)
Fixpoint name_taken (infos : list player_info) (player_name : string) : bool :=
  match infos with
  | [] => false
  | p :: rest =>
      if String.eqb (name p) player_name then true
      else name_taken rest player_name
  end.

(** [handle_join_game] *)
Definition handle_join_game (games : registry)
    (sid room_code_in player_name : string) (now : Z) : reply :=
  let room_code := upper room_code_in in
  match PyDict.get room_code games with
  | None => fail_with games sid "Game not found"
  | Some game =>
      if started game then fail_with games sid "Game already started"
      else if name_taken (PyDict.values (players game)) player_name
      then fail_with games sid "Name already taken"
      else
        let game' := add_player game sid player_name now in
        let player_list := player_names game' in
        finish (PyDict.set room_code game' games)
          [JoinRoom sid room_code;
           Emit (ToRequester sid) (joined_game room_code player_name);
           Emit (ToRoom room_code)
             (player_list_update player_list (List.length player_list))]
  end.

(** [handle_submit_assignment] *)
Definition handle_submit_assignment (games : registry)
    (sid room_code player_name got_name : string) : reply :=
  match PyDict.get room_code games with
  | None => fail_with games sid "Game not found"
  | Some game =>
      let game' := set_assignment game player_name got_name in
      let all_assigned :=
        PyDict.len (assignments game') =? PyDict.len (players game') in
      finish (PyDict.set room_code game' games)
        [Emit (ToRoom room_code)
           (assignment_submitted player_name (PyDict.len (players game'))
              (PyDict.len (assignments game')) all_assigned)]
  end.

(** [handle_start_game] *)
Definition handle_start_game (games : registry) (sid room_code : string)
  : reply :=
  match PyDict.get room_code games with
  | None => fail_with games sid "Game not found"
  | Some game =>
      if negb (String.eqb sid (host_id game))
      then fail_with games sid "Only host can start game"
      else if negb (PyDict.len (assignments game) =? PyDict.len (players game))
      then fail_with games sid "Not all players have submitted assignments"
      else
        finish (PyDict.set room_code (with_started game true) games)
          [Emit (ToRoom room_code)
             (game_started
                "Game has started! Guess who your Secret Santa is!")]
  end.

(** [handle_make_guess].  An exception of [game.make_guess] is not
    caught: it ends the handler before any [emit].  The later reads of
    [game.guesses[player_name]] can raise [KeyError] as well. *)
Definition handle_make_guess (games : registry)
    (sid room_code player_name guessed_santa : string) (now : Z) : reply :=
  match PyDict.get room_code games with
  | None => fail_with games sid "Game not found"
  | Some game =>
      if negb (started game) then fail_with games sid "Game not started yet"
      else if PyDict.mem player_name (completed game)
      then fail_with games sid "You already found your Santa!"
      else
        match make_guess game player_name guessed_santa now with
        | Raise e => {| games_after := games; emitted := []; raised := Some e |}
        | Return (game', is_correct) =>
            let games' := PyDict.set room_code game' games in
            match PyDict.get player_name (guesses game') with
            | None =>
                {| games_after := games'; emitted := [];
                   raised := Some (KeyError player_name) |}
            | Some log =>
                let attempts := List.length log in
                let answer :=
                  Emit (ToRequester sid)
                    (guess_result is_correct guessed_santa attempts) in
                if is_correct then
                  finish games'
                    [answer;
                     Emit (ToRoom room_code)
                       (player_completed player_name guessed_santa attempts
                          (PyDict.len (completed game')));
                     Emit (ToRoom room_code)
                       (leaderboard_update (get_leaderboard game')
                          (is_complete game'))]
                else finish games' [answer]
            end
        end
  end.

(** [handle_get_game_state] *)
Definition handle_get_game_state (games : registry) (sid room_code : string)
  : reply :=
  match PyDict.get room_code games with
  | None => fail_with games sid "Game not found"
  | Some game =>
      finish games
        [Emit (ToRequester sid)
           (game_state (player_names game) (started game)
              (get_leaderboard game) (is_complete game))]
  end.

(** The loop of [handle_disconnect] over the snapshot
    [list(games.items())]: the first room that has the connection among
    its players is processed, then the loop [break]s. *)
Fixpoint disconnect_scan (sid : string) (snapshot : list (string * Game))
    (games : registry) : reply :=
  match snapshot with
  | [] => finish games []
  | (room_code, game) :: rest =>
      match PyDict.get sid (players game) with
      | None => disconnect_scan sid rest games
      | Some info =>
          let player_name := name info in
          let game' := remove_player game sid in
          let player_list := player_names game' in
          let acts :=
            [Emit (ToRoom room_code)
               (player_list_update player_list (List.length player_list));
             Emit (ToRoom room_code) (player_disconnected player_name)] in
          if PyDict.len (players game') =? 0
          then finish (PyDict.del room_code games) acts
          else finish (PyDict.set room_code game' games) acts
      end
  end.

(** [handle_disconnect] *)
Definition handle_disconnect (games : registry) (sid : string) : reply :=
  disconnect_scan sid (PyDict.items games) games.

(** ** Inbound events and runs of the server *)

Inductive event :=
| create_game (sid : string) (draws : list (nat -> nat))
| join_game (sid room_code player_name : string) (now : Z)
| submit_assignment (sid room_code player_name got_name : string)
| start_game (sid room_code : string)
| guess (sid room_code player_name guessed_santa : string) (now : Z)
| get_game_state (sid room_code : string)
| disconnect (sid : string).

Definition step (games : registry) (e : event) : option reply :=
  match e with
  | create_game sid draws => handle_create_game games sid draws
  | join_game sid rc p now => Some (handle_join_game games sid rc p now)
  | submit_assignment sid rc p q =>
      Some (handle_submit_assignment games sid rc p q)
  | start_game sid rc => Some (handle_start_game games sid rc)
  | guess sid rc p s now => Some (handle_make_guess games sid rc p s now)
  | get_game_state sid rc => Some (handle_get_game_state games sid rc)
  | disconnect sid => Some (handle_disconnect games sid)
  end.

(** The registry after a sequence of events, handled one after the
    other; a handler that raised leaves the registry as it was when the
    exception escaped and the server goes on. *)
Fixpoint run (games : registry) (trace : list event) : option registry :=
  match trace with
  | [] => Some games
  | e :: rest =>
      match step games e with
      | None => None
      | Some r => run (games_after r) rest
      end
  end.

(** The registries that the server can be in: those reached from the
    empty registry of a fresh process. *)
Definition reachable (games : registry) : Prop :=
  exists trace, run [] trace = Some games.

(** Well-formedness of the whole state: every dict has distinct keys. *)
Definition wf_game (g : Game) : Prop :=
  PyDict.wf (players g) /\ PyDict.wf (assignments g) /\
  PyDict.wf (guesses g) /\ PyDict.wf (completed g).

Definition wf_registry (games : registry) : Prop :=
  PyDict.wf games /\ Forall wf_game (PyDict.values games).

(** ** Predicates used in the statements *)

(** [santa_name] is the key of the first item of [a], in insertion
    order, whose value is [player_name]. *)
Definition first_santa (a : PyDict.dict string)
    (player_name santa_name : string) : Prop :=
  exists pre post,
    a = pre ++ (santa_name, player_name) :: post /\
    forall k v, In (k, v) pre -> v <> player_name.

(** A game in which two players, Alice then Bob, both submitted Pat as
    the person they buy for, and Pat has not guessed yet. *)
Definition two_santas_game : Game :=
  {| host_id := "host";
     players :=
       [("s1", {| name := "Alice"; joined_at := 1%Z |});
        ("s2", {| name := "Bob"; joined_at := 2%Z |});
        ("s3", {| name := "Pat"; joined_at := 3%Z |})];
     assignments := [("Alice", "Pat"); ("Bob", "Pat"); ("Pat", "Alice")];
     guesses := [("Alice", []); ("Bob", []); ("Pat", [])];
     completed := [];
     started := true |}.

(** A random source whose first code is [ABCDEF]. *)
Definition rnd_abcdef : nat -> nat := fun i => i.

(** The events that lead a fresh server to [two_santas_game]. *)
Definition two_santas_trace : list event :=
  [create_game "host" [rnd_abcdef];
   join_game "s1" "ABCDEF" "Alice" 1%Z;
   join_game "s2" "ABCDEF" "Bob" 2%Z;
   join_game "s3" "ABCDEF" "Pat" 3%Z;
   submit_assignment "s1" "ABCDEF" "Alice" "Pat";
   submit_assignment "s2" "ABCDEF" "Bob" "Pat";
   submit_assignment "s3" "ABCDEF" "Pat" "Alice";
   start_game "host" "ABCDEF"].


(** The three preconditions of [start_game]: the room exists, the
    requester is its host, and there are as many assignments as
    players. *)
Definition may_start (games : registry) (sid room_code : string) : Prop :=
  exists game,
    PyDict.get room_code games = Some game /\
    sid = host_id game /\
    PyDict.len (assignments game) = PyDict.len (players game).

(** A lobby with two members of which only Alice submitted. *)
Definition lobby_trace : list event :=
  [create_game "host" [rnd_abcdef];
   join_game "s1" "ABCDEF" "Alice" 1%Z;
   join_game "s2" "ABCDEF" "Bob" 2%Z;
   submit_assignment "s1" "ABCDEF" "Alice" "Bob"].

Definition lobby_game : Game :=
  {| host_id := "host";
     players :=
       [("s1", {| name := "Alice"; joined_at := 1%Z |});
        ("s2", {| name := "Bob"; joined_at := 2%Z |})];
     assignments := [("Alice", "Bob")];
     guesses := [("Alice", []); ("Bob", [])];
     completed := [];
     started := false |}.

Definition lobby_games : registry := [("ABCDEF", lobby_game)].


(** A room whose only member, Alice, joined with the code typed in
    lower case. *)
Definition alice_trace : list event :=
  [create_game "host" [rnd_abcdef];
   join_game "s1" "abcdef" "Alice" 1%Z].

Definition alice_games : registry :=
  [("ABCDEF", add_player (new_game "host") "s1" "Alice" 1%Z)].

(** Scenario A of the specification up to Bob's correct first guess. *)
Definition bob_done_trace : list event :=
  [create_game "host" [rnd_abcdef];
   join_game "s1" "ABCDEF" "Alice" 1%Z;
   join_game "s2" "ABCDEF" "Bob" 2%Z;
   submit_assignment "s1" "ABCDEF" "Alice" "Bob";
   submit_assignment "s2" "ABCDEF" "Bob" "Alice";
   start_game "host" "ABCDEF";
   guess "s2" "ABCDEF" "Bob" "Alice" 5%Z].

Definition bob_done_game : Game :=
  {| host_id := "host";
     players :=
       [("s1", {| name := "Alice"; joined_at := 1%Z |});
        ("s2", {| name := "Bob"; joined_at := 2%Z |})];
     assignments := [("Alice", "Bob"); ("Bob", "Alice")];
     guesses := [("Alice", []); ("Bob", ["Alice"])];
     completed :=
       [("Bob", {| timestamp := 5%Z; guess_count := 1; santa := "Alice" |})];
     started := true |}.


(** The order of the leaderboard on completion records: fewer guesses
    first, and for equal guess counts the earlier timestamp first. *)
Definition completion_le (a b : completion) : Prop :=
  guess_count a < guess_count b \/
  (guess_count a = guess_count b /\ (timestamp a <= timestamp b)%Z).

(** The completions whose sort key is [k]. *)
Definition has_key (k : nat * Z) (x : string * completion) : bool :=
  (fst (completion_key x) =? fst k) && (snd (completion_key x) =? snd k)%Z.

(** Scenario A continued: Alice also guesses right at her first
    attempt, at the same clock reading as Bob. *)
Definition tie_trace : list event :=
  bob_done_trace ++ [guess "s1" "ABCDEF" "Alice" "Bob" 5%Z].

Definition tie_game : Game :=
  {| host_id := "host";
     players :=
       [("s1", {| name := "Alice"; joined_at := 1%Z |});
        ("s2", {| name := "Bob"; joined_at := 2%Z |})];
     assignments := [("Alice", "Bob"); ("Bob", "Alice")];
     guesses := [("Alice", ["Bob"]); ("Bob", ["Alice"])];
     completed :=
       [("Bob", {| timestamp := 5%Z; guess_count := 1; santa := "Alice" |});
        ("Alice", {| timestamp := 5%Z; guess_count := 1; santa := "Bob" |})];
     started := true |}.


(** ** Further routes and predicates *)

(** The [/health] route: the body [{'status': 'healthy', 'games':
    len(games)}] and the HTTP status. *)
Record health_report := { status : string; games_count : nat }.

Definition health (games : registry) : health_report * nat :=
  ({| status := "healthy"; games_count := PyDict.len games |}, 200).

(** [request.sid] of an inbound event. *)
Definition sid_of (e : event) : string :=
  match e with
  | create_game sid _ => sid
  | join_game sid _ _ _ => sid
  | submit_assignment sid _ _ _ => sid
  | start_game sid _ => sid
  | guess sid _ _ _ _ => sid
  | get_game_state sid _ => sid
  | disconnect sid => sid
  end.


(** Members have pairwise distinct display names, and each of these
    names has a guess history. *)
Definition members_inv (g : Game) : Prop :=
  NoDup (player_names g) /\
  forall info, In info (PyDict.values (players g)) ->
               PyDict.mem (name info) (guesses g) = true.

(** Before the start nothing has been guessed or completed; a
    completion record counts the guesses of its player, the last of
    which named the recorded santa. *)
Definition history_inv (g : Game) : Prop :=
  (started g = false ->
   completed g = [] /\
   forall p log, PyDict.get p (guesses g) = Some log -> log = []) /\
  (forall p d, PyDict.get p (completed g) = Some d ->
     exists log,
       PyDict.get p (guesses g) = Some (log ++ [santa d]) /\
       guess_count d = List.length log + 1).

Definition game_inv (g : Game) : Prop :=
  wf_game g /\ members_inv g /\ history_inv g.


(** The reply of [create_game] on a fresh server whose random source
    delivers [ABCDEF]. *)
Definition abcdef_created : reply :=
  finish [("ABCDEF", new_game "host")]
    [JoinRoom "host" "ABCDEF";
     Emit (ToRequester "host") (game_created "ABCDEF")].

(** * Properties *)

(** ** Facts about dictionaries *)

Module PyDictFacts.
Import PyDict.

Section Facts.
Context {V : Type}.
Implicit Types (d : dict V) (k : string) (v : V).

Lemma mem_get k d : mem k d = true <-> exists v, get k d = Some v.
Proof.
  unfold mem. destruct (get k d) as [v|]; split; intros H; eauto.
  - discriminate.
  - destruct H as [v H]; discriminate.
Qed.

Lemma mem_false_get k d : mem k d = false <-> get k d = None.
Proof.
  unfold mem. destruct (get k d); split; intros H; congruence.
Qed.

Lemma mem_keys k d : mem k d = true <-> In k (keys d).
Proof.
  unfold mem. induction d as [|[k' v'] r IH]; simpl.
  - split; [discriminate | tauto].
  - destruct (String.eqb_spec k k') as [->|Hne].
    + split; auto.
    + rewrite IH. split; [auto | intros [E|H]; [congruence | exact H]].
Qed.

Lemma get_In k v d : get k d = Some v -> In (k, v) d.
Proof.
  induction d as [|[k' v'] r IH]; simpl; [discriminate|].
  destruct (String.eqb_spec k k') as [->|Hne].
  - intros [= ->]. now left.
  - intros H. right. auto.
Qed.

Lemma In_get k v d : wf d -> In (k, v) d -> get k d = Some v.
Proof.
  unfold wf. induction d as [|[k' v'] r IH]; simpl; [tauto|].
  intros Hnd [E|Hin]; inversion Hnd as [|? ? Hnotin Hnd']; subst.
  - inversion E; subst. now rewrite String.eqb_refl.
  - destruct (String.eqb_spec k k') as [->|Hne]; [|auto].
    exfalso. apply Hnotin. change (In (fst (k', v)) (map fst r)).
    now apply in_map.
Qed.

Lemma get_set_eq k v d : get k (set k v d) = Some v.
Proof.
  induction d as [|[k' v'] r IH]; simpl.
  - now rewrite String.eqb_refl.
  - destruct (String.eqb_spec k k') as [->|Hne]; simpl.
    + now rewrite String.eqb_refl.
    + destruct (String.eqb_spec k k'); [contradiction | exact IH].
Qed.

Lemma get_set_ne k k' v d : k' <> k -> get k' (set k v d) = get k' d.
Proof.
  intros Hne. induction d as [|[k0 v0] r IH]; simpl.
  - destruct (String.eqb_spec k' k); [contradiction | reflexivity].
  - destruct (String.eqb_spec k k0) as [->|Hne0]; simpl.
    + destruct (String.eqb_spec k' k0); [contradiction | reflexivity].
    + destruct (String.eqb_spec k' k0); [reflexivity | exact IH].
Qed.

Lemma get_del_eq k d : get k (del k d) = None.
Proof.
  induction d as [|[k' v'] r IH]; simpl; [reflexivity|].
  destruct (String.eqb_spec k k') as [->|Hne]; simpl; [exact IH|].
  destruct (String.eqb_spec k k'); [contradiction | exact IH].
Qed.

Lemma get_del_ne k k' d : k' <> k -> get k' (del k d) = get k' d.
Proof.
  intros Hne. induction d as [|[k0 v0] r IH]; simpl; [reflexivity|].
  destruct (String.eqb_spec k k0) as [->|Hne0]; simpl.
  - destruct (String.eqb_spec k' k0); [contradiction | exact IH].
  - destruct (String.eqb_spec k' k0); [reflexivity | exact IH].
Qed.

Lemma mem_set_eq k v d : mem k (set k v d) = true.
Proof. unfold mem. now rewrite get_set_eq. Qed.

Lemma mem_set_ne k k' v d : k' <> k -> mem k' (set k v d) = mem k' d.
Proof. intros H. unfold mem. now rewrite get_set_ne. Qed.

Lemma mem_del_eq k d : mem k (del k d) = false.
Proof. unfold mem. now rewrite get_del_eq. Qed.

Lemma mem_del_ne k k' d : k' <> k -> mem k' (del k d) = mem k' d.
Proof. intros H. unfold mem. now rewrite get_del_ne. Qed.

Lemma del_absent k d : mem k d = false -> del k d = d.
Proof.
  unfold mem. induction d as [|[k' v'] r IH]; simpl; [reflexivity|].
  destruct (String.eqb_spec k k') as [->|Hne]; [discriminate|].
  intros H. now rewrite IH.
Qed.

Lemma len_set k v d :
  len (set k v d) = if mem k d then len d else S (len d).
Proof.
  unfold mem, len. induction d as [|[k' v'] r IH]; simpl; [reflexivity|].
  destruct (String.eqb_spec k k') as [->|Hne]; simpl; [reflexivity|].
  rewrite IH. now destruct (get k r).
Qed.

Lemma keys_del_subset k k' d : In k' (keys (del k d)) -> In k' (keys d).
Proof.
  unfold keys. induction d as [|[k0 v0] r IH]; simpl; [tauto|].
  destruct (String.eqb k k0); simpl; intuition.
Qed.

Lemma keys_set k k' v d :
  In k' (keys (set k v d)) -> k' = k \/ In k' (keys d).
Proof.
  unfold keys. induction d as [|[k0 v0] r IH]; simpl.
  - intuition.
  - destruct (String.eqb_spec k k0) as [->|Hne]; simpl; intuition.
Qed.

(** The operations preserve the representation invariant. *)
Lemma wf_nil : wf (@nil (string * V)).
Proof. constructor. Qed.

Lemma wf_del k d : wf d -> wf (del k d).
Proof.
  unfold wf. induction d as [|[k0 v0] r IH]; simpl; [auto|].
  intros Hnd. inversion Hnd as [|? ? Hnotin Hnd']; subst.
  destruct (String.eqb k k0); simpl; [auto|].
  constructor; [|auto]. intros Hin. apply Hnotin.
  now apply keys_del_subset in Hin.
Qed.

Lemma wf_set k v d : wf d -> wf (set k v d).
Proof.
  unfold wf. induction d as [|[k0 v0] r IH]; simpl.
  - intros _. constructor; [simpl; tauto | constructor].
  - intros Hnd. inversion Hnd as [|? ? Hnotin Hnd']; subst.
    destruct (String.eqb_spec k k0) as [->|Hne]; simpl.
    + now constructor.
    + constructor; [|auto]. intros Hin.
      apply keys_set in Hin. destruct Hin as [E|Hin]; [congruence|].
      now apply Hnotin.
Qed.

(** Deleting a present key of a well-formed dict removes one entry. *)
Lemma len_del_present k d :
  wf d -> mem k d = true -> S (len (del k d)) = len d.
Proof.
  unfold wf, len. induction d as [|[k0 v0] r IH]; simpl.
  - intros _ H. discriminate.
  - intros Hnd Hm. inversion Hnd as [|? ? Hnotin Hnd']; subst.
    unfold mem in Hm. simpl in Hm.
    destruct (String.eqb_spec k k0) as [->|Hne]; simpl.
    + rewrite del_absent; [reflexivity|].
      destruct (mem k0 r) eqn:E; [|reflexivity].
      apply mem_keys in E. contradiction.
    + f_equal. apply IH; [assumption|]. exact Hm.
Qed.
End Facts.

End PyDictFacts.

(** ** [Game.make_guess] *)

Lemma find_santa_first (a : PyDict.dict string) (p s : string) :
  find_santa a p = Some s <-> first_santa a p s.
Proof.
  unfold first_santa. induction a as [|[k v] r IH]; simpl.
  - split; [discriminate|]. intros (pre & post & E & _).
    destruct pre; discriminate.
  - destruct (String.eqb_spec v p) as [->|Hne].
    + split.
      * intros [= ->]. exists [], r. split; [reflexivity|]. intros ? ? [].
      * intros (pre & post & E & Hpre). destruct pre as [|[k0 v0] pre].
        -- simpl in E. congruence.
        -- simpl in E. inversion E; subst.
           exfalso. eapply Hpre; [left; reflexivity | reflexivity].
    + rewrite IH. split.
      * intros (pre & post & -> & Hpre). exists ((k, v) :: pre), post.
        split; [reflexivity|]. intros k0 v0 [E|Hin].
        -- inversion E; subst. exact Hne.
        -- eauto.
      * intros (pre & post & E & Hpre). destruct pre as [|[k0 v0] pre].
        -- simpl in E. inversion E; subst. contradiction.
        -- simpl in E. inversion E; subst. exists pre, post.
           split; [reflexivity|]. intros k1 v1 Hin. apply (Hpre k1 v1).
           now right.
Qed.

Lemma find_santa_In (a : PyDict.dict string) (p s : string) :
  find_santa a p = Some s -> In (s, p) a.
Proof.
  induction a as [|[k v] r IH]; simpl; [discriminate|].
  destruct (String.eqb_spec v p) as [->|Hne].
  - intros [= ->]. now left.
  - intros H. right. auto.
Qed.

Lemma find_santa_none (a : PyDict.dict string) (p : string) :
  find_santa a p = None <-> forall k, ~ In (k, p) a.
Proof.
  induction a as [|[k v] r IH]; simpl.
  - split; [intros _ ? [] | reflexivity].
  - destruct (String.eqb_spec v p) as [->|Hne].
    + split; [discriminate|]. intros H. exfalso. apply (H k). now left.
    + rewrite IH. split.
      * intros H k0 [E|Hin]; [congruence | now apply (H k0)].
      * intros H k0 Hin. apply (H k0). now right.
Qed.

(** The verdict of [make_guess] as a function of the assignments. *)
Lemma make_guess_returns (g : Game) (p s : string) (now : Z)
    (log : list string) :
  PyDict.get p (guesses g) = Some log ->
  exists g',
    make_guess g p s now =
      Return (g', santa_eqb (find_santa (assignments g) p) s) /\
    guesses g' = PyDict.set p (log ++ [s]) (guesses g) /\
    assignments g' = assignments g /\
    players g' = players g /\
    started g' = started g /\
    host_id g' = host_id g /\
    completed g' =
      (if santa_eqb (find_santa (assignments g) p) s
       then PyDict.set p
              {| timestamp := now; guess_count := List.length (log ++ [s]);
                 santa := s |} (completed g)
       else completed g).
Proof.
  intros Hlog. unfold make_guess. rewrite Hlog. simpl.
  unfold PyDict.items.
  destruct (find_santa (assignments g) p) as [s0|] eqn:Hf; simpl.
  - destruct (String.eqb_spec s0 s) as [->|Hne]; eexists; repeat split.
  - eexists; repeat split.
Qed.

(** C1, as amended: for a player [p] with a guess history [log],
    [make_guess] returns, appends the guess [s] to the history of [p],
    and answers [true] exactly when the first assignment in insertion
    order whose recipient is [p] was submitted by [s]; on [true] the
    completion recorded for [p] has the length of the history after the
    append as guess count and [s] as santa, on [false] the completions
    are untouched. *)
Theorem make_guess_first_santa (g : Game) (p s : string) (now : Z)
    (log : list string) :
  PyDict.get p (guesses g) = Some log ->
  exists g' b,
    make_guess g p s now = Return (g', b) /\
    PyDict.get p (guesses g') = Some (log ++ [s]) /\
    (b = true <-> first_santa (assignments g) p s) /\
    (b = true ->
     PyDict.get p (completed g') =
       Some {| timestamp := now; guess_count := List.length log + 1;
               santa := s |}) /\
    (b = false -> completed g' = completed g).
Proof.
  intros Hlog.
  destruct (make_guess_returns g p s now log Hlog)
    as (g' & Hret & Hg & _ & _ & _ & _ & Hc).
  exists g', (santa_eqb (find_santa (assignments g) p) s).
  split; [exact Hret|]. split.
  { rewrite Hg. apply PyDictFacts.get_set_eq. }
  split.
  { rewrite <- find_santa_first. unfold santa_eqb.
    destruct (find_santa (assignments g) p) as [s0|].
    - destruct (String.eqb_spec s0 s); split; congruence.
    - split; discriminate. }
  split.
  - intros Hb. rewrite Hc, Hb, PyDictFacts.get_set_eq.
    now rewrite length_app.
  - intros Hb. now rewrite Hc, Hb.
Qed.

(** Scenario D: the third guess is the first correct one and the
    completion records three guesses. *)
Lemma make_guess_first_santa_witness :
  exists g' b,
    make_guess
      (with_guesses two_santas_game
         [("Alice", []); ("Bob", []); ("Pat", ["Bob"; "Pat"])])
      "Pat" "Alice" 9%Z = Return (g', b) /\
    PyDict.get "Pat" (guesses g') = Some (["Bob"; "Pat"] ++ ["Alice"]) /\
    (b = true <-> first_santa (assignments two_santas_game) "Pat" "Alice") /\
    (b = true ->
     PyDict.get "Pat" (completed g') =
       Some {| timestamp := 9%Z; guess_count := 3; santa := "Alice" |}) /\
    (b = false -> completed g' = completed two_santas_game).
Proof.
  apply (make_guess_first_santa
           (with_guesses two_santas_game
              [("Alice", []); ("Bob", []); ("Pat", ["Bob"; "Pat"])])
           "Pat" "Alice" 9%Z ["Bob"; "Pat"]).
  reflexivity.
Defined.

(** When at most one assignment names [p] as recipient, the verdict is
    [true] exactly when the pair [(s, p)] is among the assignments. *)
Lemma make_guess_unique_santa (g : Game) (p s : string) (now : Z)
    (log : list string) :
  PyDict.get p (guesses g) = Some log ->
  (forall k k', In (k, p) (assignments g) -> In (k', p) (assignments g) ->
                k = k') ->
  (exists g', make_guess g p s now = Return (g', true)) <->
  In (s, p) (assignments g).
Proof.
  intros Hlog Huniq.
  destruct (make_guess_returns g p s now log Hlog) as (g' & Hret & _).
  rewrite Hret. unfold santa_eqb.
  destruct (find_santa (assignments g) p) as [s0|] eqn:Hf.
  - apply find_santa_In in Hf.
    destruct (String.eqb_spec s0 s) as [->|Hne]; split; intros H; eauto.
    + destruct H as [g2 H]. discriminate.
    + exfalso. apply Hne. now apply Huniq.
  - split; [intros [g2 H]; discriminate|]. intros Hin.
    exfalso. now apply (proj1 (find_santa_none _ _) Hf s).
Qed.

(** The state of the counterexample below is one the server reaches. *)
Lemma two_santas_reachable :
  run [] two_santas_trace = Some [("ABCDEF", two_santas_game)].
Proof. vm_compute. reflexivity. Qed.

(** C1, as stated, fails: Bob did submit Pat as his recipient, so an
    assignment with value Pat and key Bob exists, and yet Pat's guess
    "Bob" is answered [false] (the scan stopped at Alice's entry) and no
    completion is recorded. *)
Lemma make_guess_second_santa_rejected :
  In ("Bob", "Pat") (assignments two_santas_game) /\
  PyDict.get "Pat" (guesses two_santas_game) = Some [] /\
  exists g',
    make_guess two_santas_game "Pat" "Bob" 9%Z = Return (g', false) /\
    PyDict.get "Pat" (guesses g') = Some ["Bob"] /\
    PyDict.get "Pat" (completed g') = None.
Proof.
  split; [simpl; tauto|]. split; [reflexivity|].
  eexists. split; [vm_compute; reflexivity|]. split; reflexivity.
Qed.

(** ** [handle_start_game] *)

Lemma may_start_dec (games : registry) (sid room_code : string) :
  {may_start games sid room_code} + {~ may_start games sid room_code}.
Proof.
  unfold may_start.
  destruct (PyDict.get room_code games) as [game|] eqn:Hg.
  - destruct (String.eqb_spec sid (host_id game)) as [Hh|Hh].
    + destruct (Nat.eq_dec (PyDict.len (assignments game))
                  (PyDict.len (players game))) as [Hl|Hl].
      * left. eauto.
      * right. intros (g0 & [= <-] & _ & Hl'). contradiction.
    + right. intros (g0 & [= <-] & Hh' & _). contradiction.
  - right. intros (g0 & E & _). discriminate.
Qed.

(** C2: [start_game] marks the game of the room as started exactly when
    the room exists, the requester is the host and the numbers of
    assignments and of players agree; it then announces the start to
    the room and changes nothing else.  When a precondition fails the
    registry is left as it was (a game in the lobby stays in the lobby)
    and the only action is one error sent to the requester: 'Game not
    found', 'Only host can start game' or 'Not all players have
    submitted assignments'. *)
Theorem handle_start_game_guarded (games : registry) (sid room_code : string) :
  let r := handle_start_game games sid room_code in
  raised r = None /\
  (may_start games sid room_code ->
   exists game,
     PyDict.get room_code games = Some game /\
     games_after r = PyDict.set room_code (with_started game true) games /\
     PyDict.get room_code (games_after r) = Some (with_started game true) /\
     (forall rc, rc <> room_code ->
                 PyDict.get rc (games_after r) = PyDict.get rc games) /\
     emitted r =
       [Emit (ToRoom room_code)
          (game_started "Game has started! Guess who your Secret Santa is!")]) /\
  (~ may_start games sid room_code ->
   games_after r = games /\
   exists msg, emitted r = [Emit (ToRequester sid) (error msg)]) /\
  (PyDict.get room_code games = None ->
   emitted r = [Emit (ToRequester sid) (error "Game not found")]) /\
  (forall game,
     PyDict.get room_code games = Some game ->
     (sid <> host_id game ->
      emitted r = [Emit (ToRequester sid) (error "Only host can start game")]) /\
     (sid = host_id game ->
      PyDict.len (assignments game) <> PyDict.len (players game) ->
      emitted r =
        [Emit (ToRequester sid)
           (error "Not all players have submitted assignments")]) /\
     (started game = false ->
      ((exists game', PyDict.get room_code (games_after r) = Some game' /\
                      started game' = true) <->
       may_start games sid room_code))).
Proof.
  cbv zeta. unfold handle_start_game, may_start.
  destruct (PyDict.get room_code games) as [game|] eqn:Hg.
  2:{ split; [reflexivity|]. split.
      { intros (g0 & E & _). discriminate. }
      split; [intros _; split; [reflexivity | eexists; reflexivity]|].
      split; [intros _; reflexivity|]. intros g0 E. discriminate. }
  destruct (String.eqb_spec sid (host_id game)) as [Hh|Hh]; simpl.
  2:{ split; [reflexivity|]. split.
      { intros (g0 & [= <-] & Hh' & _). contradiction. }
      split; [intros _; split; [reflexivity | eexists; reflexivity]|].
      split; [discriminate|]. intros g0 [= <-].
      split; [reflexivity|]. split; [contradiction|].
      intros Hs. rewrite Hg. split.
      - intros (g' & [= <-] & Hs'). congruence.
      - intros (g1 & [= <-] & Hh' & _). contradiction. }
  destruct (Nat.eqb_spec (PyDict.len (assignments game))
              (PyDict.len (players game))) as [Hl|Hl]; simpl.
  2:{ split; [reflexivity|]. split.
      { intros (g0 & [= <-] & _ & Hl'). contradiction. }
      split; [intros _; split; [reflexivity | eexists; reflexivity]|].
      split; [discriminate|]. intros g0 [= <-].
      split; [contradiction|]. split; [reflexivity|].
      intros Hs. rewrite Hg. split.
      - intros (g' & [= <-] & Hs'). congruence.
      - intros (g1 & [= <-] & _ & Hl'). contradiction. }
  split; [reflexivity|]. split.
  { intros _. exists game. split; [reflexivity|]. split; [reflexivity|].
    split; [apply PyDictFacts.get_set_eq|]. split; [|reflexivity].
    intros rc Hrc. now apply PyDictFacts.get_set_ne. }
  split.
  { intros Hn. exfalso. apply Hn. eauto. }
  split; [discriminate|]. intros g0 [= <-].
  split; [contradiction|]. split; [contradiction|].
  intros Hs. split; [eauto|]. intros _.
  exists (with_started game true). split; [|reflexivity].
  apply PyDictFacts.get_set_eq.
Qed.

(** Scenario B: a connection that is not the host asks to start. *)
Example start_by_non_host :
  run [] lobby_trace = Some lobby_games /\
  handle_start_game lobby_games "s1" "ABCDEF" =
    fail_with lobby_games "s1" "Only host can start game".
Proof. split; vm_compute; reflexivity. Qed.

(** Scenario C: two members, one submitted assignment. *)
Example start_with_missing_assignment :
  handle_start_game lobby_games "host" "ABCDEF" =
    fail_with lobby_games "host" "Not all players have submitted assignments".
Proof. vm_compute. reflexivity. Qed.

(** ** Room codes in inbound events *)

Lemma upper_ascii_idempotent (c : ascii) :
  upper_ascii (upper_ascii c) = upper_ascii c.
Proof. destruct c as [[] [] [] [] [] [] [] []]; reflexivity. Qed.

Lemma upper_idempotent (s : string) : upper (upper s) = upper s.
Proof.
  induction s as [|c r IH]; simpl; [reflexivity|].
  now rewrite IH, upper_ascii_idempotent.
Qed.

(** [handle_join_game] resolves a room code in any letter case. *)
Lemma handle_join_game_any_case (games : registry)
    (sid room_code player_name : string) (now : Z) :
  handle_join_game games sid room_code player_name now =
  handle_join_game games sid (upper room_code) player_name now.
Proof. unfold handle_join_game. now rewrite upper_idempotent. Qed.

(** The other four handlers look the code up as it was sent: a code
    that is not itself a key of the registry is rejected, whatever its
    upper-case form is. *)
Lemma handlers_look_up_raw_code (games : registry)
    (sid room_code p q : string) (now : Z) :
  PyDict.get room_code games = None ->
  handle_submit_assignment games sid room_code p q =
    fail_with games sid "Game not found" /\
  handle_start_game games sid room_code =
    fail_with games sid "Game not found" /\
  handle_make_guess games sid room_code p q now =
    fail_with games sid "Game not found" /\
  handle_get_game_state games sid room_code =
    fail_with games sid "Game not found".
Proof.
  intros H.
  unfold handle_submit_assignment, handle_start_game, handle_make_guess,
    handle_get_game_state.
  rewrite H. repeat split.
Qed.

(** C3 on the code: Alice joins room [ABCDEF] typing [abcdef], which
    [handle_join_game] upper-cases and accepts; the same lower-case
    code is then answered 'Game not found' by [submit_assignment],
    [start_game], [make_guess] and [get_game_state], which leave the
    registry as it was. *)
Theorem lowercase_code_only_resolved_by_join :
  run [] alice_trace = Some alice_games /\
  upper "abcdef" = "ABCDEF" /\
  PyDict.mem "ABCDEF" alice_games = true /\
  handle_submit_assignment alice_games "s1" "abcdef" "Alice" "Bob" =
    fail_with alice_games "s1" "Game not found" /\
  handle_start_game alice_games "host" "abcdef" =
    fail_with alice_games "host" "Game not found" /\
  handle_make_guess alice_games "s1" "abcdef" "Alice" "Bob" 7%Z =
    fail_with alice_games "s1" "Game not found" /\
  handle_get_game_state alice_games "s1" "abcdef" =
    fail_with alice_games "s1" "Game not found".
Proof. repeat split; vm_compute; reflexivity. Qed.

(** ** [Game.remove_player] *)

Lemma remove_player_absent (g : Game) (sid : string) :
  PyDict.get sid (players g) = None -> remove_player g sid = g.
Proof. intros H. unfold remove_player. now rewrite H. Qed.

(** With the guards [if name in ...] resolved: the member and the three
    entries under its name are deleted. *)
Lemma remove_player_present (g : Game) (sid : string) (info : player_info) :
  PyDict.get sid (players g) = Some info ->
  remove_player g sid =
  {| host_id := host_id g;
     players := PyDict.del sid (players g);
     assignments := PyDict.del (name info) (assignments g);
     guesses := PyDict.del (name info) (guesses g);
     completed := PyDict.del (name info) (completed g);
     started := started g |}.
Proof.
  intros H. unfold remove_player. rewrite H. cbv zeta.
  destruct (PyDict.mem (name info) (guesses (with_players g _))) eqn:E1;
  simpl in E1.
  all: destruct (PyDict.mem (name info) (assignments g)) eqn:E2; simpl.
  all: rewrite ?E2; simpl.
  all: destruct (PyDict.mem (name info) (completed g)) eqn:E3; simpl.
  all: unfold with_completed, with_assignments, with_guesses, with_players;
    simpl.
  all: rewrite ?(PyDictFacts.del_absent _ _ E1),
         ?(PyDictFacts.del_absent _ _ E2), ?(PyDictFacts.del_absent _ _ E3).
  all: reflexivity.
Qed.

(** C4, as amended: removing a member deletes its membership entry and
    the guess history, the submitted assignment and the completion
    record stored under its display name; the entries of every other
    name and of every other connection, the host and the phase are
    kept. *)
Theorem remove_player_purges_name (g : Game) (sid : string)
    (info : player_info) :
  PyDict.get sid (players g) = Some info ->
  let g' := remove_player g sid in
  PyDict.get sid (players g') = None /\
  PyDict.get (name info) (guesses g') = None /\
  PyDict.get (name info) (assignments g') = None /\
  PyDict.get (name info) (completed g') = None /\
  (forall n, n <> name info ->
     PyDict.get n (guesses g') = PyDict.get n (guesses g) /\
     PyDict.get n (assignments g') = PyDict.get n (assignments g) /\
     PyDict.get n (completed g') = PyDict.get n (completed g)) /\
  (forall s, s <> sid ->
     PyDict.get s (players g') = PyDict.get s (players g)) /\
  host_id g' = host_id g /\ started g' = started g.
Proof.
  intros H. cbv zeta. rewrite (remove_player_present g sid info H). simpl.
  split; [apply PyDictFacts.get_del_eq|].
  split; [apply PyDictFacts.get_del_eq|].
  split; [apply PyDictFacts.get_del_eq|].
  split; [apply PyDictFacts.get_del_eq|].
  split.
  { intros n Hn. repeat split; now apply PyDictFacts.get_del_ne. }
  split; [|split; reflexivity].
  intros s Hs. now apply PyDictFacts.get_del_ne.
Qed.

Lemma bob_done_reachable :
  run [] bob_done_trace = Some [("ABCDEF", bob_done_game)].
Proof. vm_compute. reflexivity. Qed.

(** Bob, who has guessed once and completed, leaves. *)
Lemma remove_player_purges_name_witness :
  let g' := remove_player bob_done_game "s2" in
  PyDict.get "s2" (players g') = None /\
  PyDict.get "Bob" (guesses g') = None /\
  PyDict.get "Bob" (assignments g') = None /\
  PyDict.get "Bob" (completed g') = None /\
  (forall n, n <> "Bob" ->
     PyDict.get n (guesses g') = PyDict.get n (guesses bob_done_game) /\
     PyDict.get n (assignments g') = PyDict.get n (assignments bob_done_game) /\
     PyDict.get n (completed g') = PyDict.get n (completed bob_done_game)) /\
  (forall s, s <> "s2" ->
     PyDict.get s (players g') = PyDict.get s (players bob_done_game)) /\
  host_id g' = "host" /\ started g' = true.
Proof.
  apply (remove_player_purges_name bob_done_game "s2"
           {| name := "Bob"; joined_at := 2%Z |}).
  reflexivity.
Defined.

(** C4, as stated, fails: Bob's guess history, submitted assignment and
    completion record are all present before he disconnects and all
    absent afterwards, both after [remove_player] and in the registry
    that [handle_disconnect] leaves. *)
Lemma disconnect_erases_history :
  PyDict.get "Bob" (guesses bob_done_game) = Some ["Alice"] /\
  PyDict.get "Bob" (assignments bob_done_game) = Some "Alice" /\
  PyDict.get "Bob" (completed bob_done_game) =
    Some {| timestamp := 5%Z; guess_count := 1; santa := "Alice" |} /\
  PyDict.get "Bob" (guesses (remove_player bob_done_game "s2")) = None /\
  PyDict.get "Bob" (assignments (remove_player bob_done_game "s2")) = None /\
  PyDict.get "Bob" (completed (remove_player bob_done_game "s2")) = None /\
  games_after (handle_disconnect [("ABCDEF", bob_done_game)] "s2") =
    [("ABCDEF",
      {| host_id := "host";
         players := [("s1", {| name := "Alice"; joined_at := 1%Z |})];
         assignments := [("Alice", "Bob")];
         guesses := [("Alice", [])];
         completed := [];
         started := true |})].
Proof. repeat split; vm_compute; reflexivity. Qed.

(** ** [sorted] and [Game.get_leaderboard] *)

Lemma key_lt_spec (a b : nat * Z) :
  key_lt a b = true <->
  fst a < fst b \/ (fst a = fst b /\ (snd a < snd b)%Z).
Proof.
  unfold key_lt. rewrite orb_true_iff, andb_true_iff.
  rewrite Nat.ltb_lt, Nat.eqb_eq, Z.ltb_lt. reflexivity.
Qed.

Lemma key_lt_false (a b : nat * Z) :
  key_lt b a = false <->
  fst a < fst b \/ (fst a = fst b /\ (snd a <= snd b)%Z).
Proof.
  rewrite <- not_true_iff_false, key_lt_spec. lia.
Qed.

Lemma key_lt_asym (a b : nat * Z) : key_lt a b = true -> key_lt b a = false.
Proof. rewrite key_lt_spec, key_lt_false. lia. Qed.

Lemma completion_le_key (x y : string * completion) :
  completion_le (snd x) (snd y) <->
  key_lt (completion_key y) (completion_key x) = false.
Proof. rewrite key_lt_false. reflexivity. Qed.

Lemma completion_le_trans (a b c : completion) :
  completion_le a b -> completion_le b c -> completion_le a c.
Proof. unfold completion_le. lia. Qed.

Section SortedFacts.
Context {A : Type} (key : A -> nat * Z).

Lemma key_le_trans (x y z : A) : key_le key x y -> key_le key y z -> key_le key x z.
Proof. unfold key_le. rewrite !key_lt_false. lia. Qed.

Lemma insert_by_perm (x : A) (l : list A) :
  Permutation (insert_by key x l) (x :: l).
Proof.
  induction l as [|y r IH]; simpl; [reflexivity|].
  destruct (key_lt (key y) (key x)); [|reflexivity].
  rewrite IH. apply perm_swap.
Qed.

Lemma sorted_perm (l : list A) : Permutation (sorted key l) l.
Proof.
  induction l as [|x r IH]; simpl; [reflexivity|].
  rewrite insert_by_perm. now constructor.
Qed.

Lemma insert_by_sorted (x : A) (l : list A) :
  StronglySorted (key_le key) l -> StronglySorted (key_le key) (insert_by key x l).
Proof.
  induction 1 as [|y r Hr IH Hy]; simpl.
  - constructor; constructor.
  - destruct (key_lt (key y) (key x)) eqn:E.
    + constructor; [exact IH|].
      rewrite Forall_forall in *. intros z Hz.
      apply (Permutation_in _ (insert_by_perm x r)) in Hz.
      destruct Hz as [<-|Hz]; [|auto].
      unfold key_le. now apply key_lt_asym.
    + constructor; [now constructor|]. constructor; [exact E|].
      rewrite Forall_forall in *. intros z Hz.
      apply key_le_trans with y; [exact E | auto].
Qed.

Lemma sorted_sorted (l : list A) : StronglySorted (key_le key) (sorted key l).
Proof.
  induction l as [|x r IH]; simpl; [constructor|].
  now apply insert_by_sorted.
Qed.

(** Stability: elements with the same key stay in their input order. *)
Lemma insert_by_filter (p : A -> bool) (x : A) (l : list A) :
  (forall y, p x = true -> p y = true -> key_lt (key y) (key x) = false) ->
  filter p (insert_by key x l) = filter p (x :: l).
Proof.
  intros Hp. induction l as [|y r IH]; simpl; [reflexivity|].
  destruct (key_lt (key y) (key x)) eqn:E; [|reflexivity].
  simpl in *. rewrite IH.
  destruct (p x) eqn:Ex; [|reflexivity].
  destruct (p y) eqn:Ey; [|reflexivity].
  rewrite (Hp y eq_refl Ey) in E. discriminate.
Qed.

Lemma sorted_stable (p : A -> bool) (l : list A) :
  (forall x y, p x = true -> p y = true -> key x = key y) ->
  filter p (sorted key l) = filter p l.
Proof.
  intros Hp. induction l as [|x r IH]; simpl; [reflexivity|].
  rewrite insert_by_filter.
  - simpl. now rewrite IH.
  - intros y Hx Hy. rewrite (Hp y x Hy Hx).
    apply key_lt_false. lia.
Qed.

Lemma sorted_length (l : list A) : List.length (sorted key l) = List.length l.
Proof. apply Permutation_length, sorted_perm. Qed.
End SortedFacts.

Lemma enumerate_from_nth {A : Type} (l : list A) (k i : nat) (x : A) :
  nth_error l i = Some x ->
  nth_error (enumerate_from k l) i = Some (k + i, x).
Proof.
  revert k i. induction l as [|y r IH]; intros k [|i]; simpl; try discriminate.
  - intros [= ->]. now rewrite Nat.add_0_r.
  - intros H. rewrite (IH (S k) i H). f_equal. f_equal. lia.
Qed.

Lemma enumerate_from_ranks {A : Type} (f : nat * A -> leaderboard_row)
    (l : list A) (k : nat) :
  (forall i x, rank (f (i, x)) = i + 1) ->
  map rank (map f (enumerate_from k l)) = seq (k + 1) (List.length l).
Proof.
  intros Hf. revert k. induction l as [|y r IH]; intros k; simpl;
    [reflexivity|].
  rewrite Hf. f_equal. apply (IH (S k)).
Qed.

(** C5, as amended: the leaderboard lists the completions in ascending
    order of (guess count, completion timestamp), completions with the
    same key staying in the order in which they were recorded; the
    entry at position [i] (from 0) carries rank [i + 1], so the ranks
    are [1, 2, ..., n] without gap or repetition, ties included. *)
Theorem get_leaderboard_sorted_enumerated (g : Game) :
  let sc := sorted_completed g in
  Permutation sc (PyDict.items (completed g)) /\
  StronglySorted (fun x y => completion_le (snd x) (snd y)) sc /\
  (forall k, filter (has_key k) sc =
             filter (has_key k) (PyDict.items (completed g))) /\
  map rank (get_leaderboard g) = seq 1 (PyDict.len (completed g)) /\
  (forall i p d,
     nth_error sc i = Some (p, d) ->
     nth_error (get_leaderboard g) i =
       Some {| rank := i + 1; player := p; row_guesses := guess_count d;
               row_santa := santa d |}).
Proof.
  cbv zeta. unfold sorted_completed, get_leaderboard.
  split; [apply sorted_perm|]. split.
  { pose proof (sorted_sorted completion_key (PyDict.items (completed g)))
      as Hs.
    induction Hs as [|x r Hr IH Hx]; constructor; [exact IH|].
    rewrite Forall_forall in *. intros y Hy.
    apply completion_le_key. now apply Hx. }
  split.
  { intros k. apply sorted_stable. intros x y Hx Hy.
    unfold has_key in *. apply andb_prop in Hx, Hy.
    destruct Hx as [Hx1 Hx2], Hy as [Hy1 Hy2].
    apply Nat.eqb_eq in Hx1, Hy1. apply Z.eqb_eq in Hx2, Hy2.
    destruct (completion_key x), (completion_key y). simpl in *. congruence. }
  split.
  { rewrite enumerate_from_ranks.
    - unfold sorted_completed. now rewrite sorted_length.
    - intros i [p d]. reflexivity. }
  intros i p d H. rewrite nth_error_map. unfold sorted_completed.
  now rewrite (enumerate_from_nth _ 0 i (p, d) H).
Qed.

Lemma tie_reachable : run [] tie_trace = Some [("ABCDEF", tie_game)].
Proof. vm_compute. reflexivity. Qed.

(** C5, as stated, fails on ties: Bob and Alice completed with the same
    guess count and the same timestamp, and they are ranked 1 and 2. *)
Lemma tied_completions_ranked_apart :
  PyDict.get "Bob" (completed tie_game) =
    Some {| timestamp := 5%Z; guess_count := 1; santa := "Alice" |} /\
  PyDict.get "Alice" (completed tie_game) =
    Some {| timestamp := 5%Z; guess_count := 1; santa := "Bob" |} /\
  get_leaderboard tie_game =
    [{| rank := 1; player := "Bob"; row_guesses := 1; row_santa := "Alice" |};
     {| rank := 2; player := "Alice"; row_guesses := 1; row_santa := "Bob" |}].
Proof. repeat split. Qed.

(** ** [handle_join_game] *)

Lemma name_taken_spec (infos : list player_info) (n : string) :
  name_taken infos n = true <-> exists info, In info infos /\ name info = n.
Proof.
  induction infos as [|p r IH]; simpl.
  - split; [discriminate | intros (? & [] & _)].
  - destruct (String.eqb_spec (name p) n) as [E|E].
    + split; [eauto|reflexivity].
    + rewrite IH. split.
      * intros (info & Hin & Hn). eauto.
      * intros (info & [<-|Hin] & Hn); [contradiction | eauto].
Qed.

Lemma add_player_fields (g : Game) (sid n : string) (now : Z) :
  players (add_player g sid n now) =
    PyDict.set sid {| name := n; joined_at := now |} (players g) /\
  guesses (add_player g sid n now) = PyDict.set n [] (guesses g) /\
  assignments (add_player g sid n now) = assignments g /\
  completed (add_player g sid n now) = completed g /\
  started (add_player g sid n now) = started g /\
  host_id (add_player g sid n now) = host_id g.
Proof. repeat split. Qed.

(** C6: in a room that exists (under the upper-cased code) and has not
    started, a join under a display name that a current member already
    has is answered by the single error 'Name already taken' to the
    requester and leaves the registry, hence the members and the guess
    histories, as they were; a join under a name that no member has
    registers the connection with that name and the clock reading,
    gives the name an empty guess history, touches nothing else of the
    game, and tells the requester and the room. *)
Theorem handle_join_game_duplicate_or_fresh (games : registry)
    (sid room_code player_name : string) (now : Z) (game : Game) :
  PyDict.get (upper room_code) games = Some game ->
  started game = false ->
  let r := handle_join_game games sid room_code player_name now in
  raised r = None /\
  ((exists info,
      In info (PyDict.values (players game)) /\ name info = player_name) ->
   games_after r = games /\
   emitted r = [Emit (ToRequester sid) (error "Name already taken")]) /\
  ((forall info,
      In info (PyDict.values (players game)) -> name info <> player_name) ->
   exists game',
     games_after r = PyDict.set (upper room_code) game' games /\
     PyDict.get (upper room_code) (games_after r) = Some game' /\
     PyDict.get sid (players game') =
       Some {| name := player_name; joined_at := now |} /\
     (forall s, s <> sid ->
        PyDict.get s (players game') = PyDict.get s (players game)) /\
     PyDict.len (players game') =
       (if PyDict.mem sid (players game) then PyDict.len (players game)
        else S (PyDict.len (players game))) /\
     PyDict.get player_name (guesses game') = Some [] /\
     (forall n, n <> player_name ->
        PyDict.get n (guesses game') = PyDict.get n (guesses game)) /\
     assignments game' = assignments game /\
     completed game' = completed game /\
     started game' = false /\
     host_id game' = host_id game /\
     emitted r =
       [JoinRoom sid (upper room_code);
        Emit (ToRequester sid) (joined_game (upper room_code) player_name);
        Emit (ToRoom (upper room_code))
          (player_list_update (player_names game')
             (List.length (player_names game')))]).
Proof.
  intros Hg Hs. cbv zeta. unfold handle_join_game. rewrite Hg, Hs.
  destruct (name_taken (PyDict.values (players game)) player_name) eqn:Ht.
  - split; [reflexivity|]. split; [intros _; split; reflexivity|].
    intros Hfresh. apply name_taken_spec in Ht.
    destruct Ht as (info & Hin & Hn). exfalso. now apply (Hfresh info).
  - split; [reflexivity|]. split.
    + intros Hdup. apply name_taken_spec in Hdup. congruence.
    + intros _. exists (add_player game sid player_name now).
      destruct (add_player_fields game sid player_name now)
        as (Hp & Hq & Ha & Hc & Hst & Hh).
      split; [reflexivity|].
      split; [apply PyDictFacts.get_set_eq|].
      split; [rewrite Hp; apply PyDictFacts.get_set_eq|].
      split; [intros s Hne; rewrite Hp; now apply PyDictFacts.get_set_ne|].
      split; [rewrite Hp; apply PyDictFacts.len_set|].
      split; [rewrite Hq; apply PyDictFacts.get_set_eq|].
      split; [intros n Hne; rewrite Hq; now apply PyDictFacts.get_set_ne|].
      split; [exact Ha|]. split; [exact Hc|].
      split; [now rewrite Hst|]. split; [exact Hh|]. reflexivity.
Qed.

Lemma alice_reachable : run [] alice_trace = Some alice_games.
Proof. vm_compute. reflexivity. Qed.

(** Scenario E: a second connection asks for the name Alice in Alice's
    room; the registry is left as it was, with its one member. *)
Lemma handle_join_game_duplicate_or_fresh_witness :
  games_after (handle_join_game alice_games "s2" "abcdef" "Alice" 2%Z) =
    alice_games /\
  emitted (handle_join_game alice_games "s2" "abcdef" "Alice" 2%Z) =
    [Emit (ToRequester "s2") (error "Name already taken")].
Proof.
  apply (handle_join_game_duplicate_or_fresh alice_games "s2" "abcdef"
           "Alice" 2%Z (add_player (new_game "host") "s1" "Alice" 1%Z)
           eq_refl eq_refl).
  exists {| name := "Alice"; joined_at := 1%Z |}.
  split; [left; reflexivity | reflexivity].
Defined.

(** ** [handle_make_guess] *)

(** C8: in a started game, a guess in the name of a player who is
    already among the completions is answered by the single error 'You
    already found your Santa!' to the requester; the handler raises
    nothing and leaves the registry as it was, so the guess history and
    the completion record of that player are untouched. *)
Theorem handle_make_guess_already_completed (games : registry)
    (sid room_code player_name guessed_santa : string) (now : Z)
    (game : Game) :
  PyDict.get room_code games = Some game ->
  started game = true ->
  PyDict.mem player_name (completed game) = true ->
  handle_make_guess games sid room_code player_name guessed_santa now =
    {| games_after := games;
       emitted :=
         [Emit (ToRequester sid) (error "You already found your Santa!")];
       raised := None |}.
Proof.
  intros Hg Hs Hc. unfold handle_make_guess. now rewrite Hg, Hs, Hc.
Qed.

(** Bob, who completed at his first guess, guesses again. *)
Lemma handle_make_guess_already_completed_witness :
  handle_make_guess [("ABCDEF", bob_done_game)] "s2" "ABCDEF" "Bob" "Alice"
    6%Z =
    {| games_after := [("ABCDEF", bob_done_game)];
       emitted :=
         [Emit (ToRequester "s2") (error "You already found your Santa!")];
       raised := None |}.
Proof.
  apply (handle_make_guess_already_completed [("ABCDEF", bob_done_game)]
           "s2" "ABCDEF" "Bob" "Alice" 6%Z bob_done_game);
    reflexivity.
Defined.

(** A name without guess history gets past the three checks of the
    handler and makes [game.make_guess] raise. *)
Lemma handle_make_guess_unknown_player (games : registry)
    (sid room_code player_name guessed_santa : string) (now : Z)
    (game : Game) :
  PyDict.get room_code games = Some game ->
  started game = true ->
  PyDict.mem player_name (completed game) = false ->
  PyDict.get player_name (guesses game) = None ->
  handle_make_guess games sid room_code player_name guessed_santa now =
    {| games_after := games; emitted := [];
       raised := Some (KeyError player_name) |}.
Proof.
  intros Hg Hs Hc Hq. unfold handle_make_guess, make_guess.
  now rewrite Hg, Hs, Hc, Hq.
Qed.

(** C9: there is a registry that the server reaches from its start (the
    host creates a room and starts it while it has no player) in which
    a [make_guess] event for an existing, started room and a player
    name that is not among the completions and never joined ends in an
    uncaught [KeyError] for that name, with nothing emitted. *)
Theorem handle_make_guess_raises_key_error :
  exists (trace : list event) (games : registry) (game : Game)
         (sid room_code player_name guessed_santa : string) (now : Z),
    run [] trace = Some games /\
    PyDict.get room_code games = Some game /\
    started game = true /\
    PyDict.mem player_name (completed game) = false /\
    PyDict.mem player_name (guesses game) = false /\
    (forall s info, PyDict.get s (players game) = Some info ->
                    name info <> player_name) /\
    handle_make_guess games sid room_code player_name guessed_santa now =
      {| games_after := games; emitted := [];
         raised := Some (KeyError player_name) |}.
Proof.
  exists [create_game "host" [rnd_abcdef]; start_game "host" "ABCDEF"],
    [("ABCDEF", with_started (new_game "host") true)],
    (with_started (new_game "host") true),
    "s9", "ABCDEF", "Zed", "Alice", 7%Z.
  split; [vm_compute; reflexivity|].
  split; [reflexivity|]. split; [reflexivity|]. split; [reflexivity|].
  split; [reflexivity|]. split; [intros s info H; discriminate|].
  reflexivity.
Qed.

(** ** [handle_disconnect] *)

Lemma remove_player_players (g : Game) (sid : string) :
  players (remove_player g sid) = PyDict.del sid (players g).
Proof.
  destruct (PyDict.get sid (players g)) as [info|] eqn:H.
  - now rewrite (remove_player_present g sid info H).
  - rewrite (remove_player_absent g sid H).
    symmetry. apply PyDictFacts.del_absent.
    now apply PyDictFacts.mem_false_get.
Qed.

(** The scan skips the rooms that do not have the connection and
    processes the first one that has it. *)
Lemma disconnect_scan_first (sid : string) (pre post : list (string * Game))
    (room_code : string) (game : Game) (info : player_info)
    (games : registry) :
  (forall rc g, In (rc, g) pre -> PyDict.get sid (players g) = None) ->
  PyDict.get sid (players game) = Some info ->
  disconnect_scan sid (pre ++ (room_code, game) :: post) games =
  finish
    (if PyDict.len (players (remove_player game sid)) =? 0
     then PyDict.del room_code games
     else PyDict.set room_code (remove_player game sid) games)
    [Emit (ToRoom room_code)
       (player_list_update (player_names (remove_player game sid))
          (List.length (player_names (remove_player game sid))));
     Emit (ToRoom room_code) (player_disconnected (name info))].
Proof.
  intros Hpre Hin. induction pre as [|[rc g] pre IH]; simpl.
  - rewrite Hin. now destruct (PyDict.len _ =? 0).
  - rewrite (Hpre rc g (or_introl eq_refl)). apply IH.
    intros rc' g' H. apply (Hpre rc' g'). now right.
Qed.

(** A connection that is in no room: nothing happens. *)
Lemma disconnect_scan_stranger (sid : string)
    (snapshot : list (string * Game)) (games : registry) :
  (forall rc g, In (rc, g) snapshot -> PyDict.get sid (players g) = None) ->
  disconnect_scan sid snapshot games = finish games [].
Proof.
  induction snapshot as [|[rc g] r IH]; simpl; intros H; [reflexivity|].
  rewrite (H rc g (or_introl eq_refl)). apply IH.
  intros rc' g' Hin. apply (H rc' g'). now right.
Qed.

Lemma handle_disconnect_stranger (games : registry) (sid : string) :
  (forall rc g, In (rc, g) games -> PyDict.get sid (players g) = None) ->
  handle_disconnect games sid = finish games [].
Proof. apply disconnect_scan_stranger. Qed.

(** C7: when a connection disconnects, the first room of the registry
    that has it as a member is processed: the member is removed, and
    the room is deleted from the registry if and only if its players
    dict is empty afterwards; otherwise the room stays under its code
    with the remaining members.  In particular a room whose only
    member leaves is deleted and a room with two or more members is
    kept.  The other rooms are untouched. *)
Theorem handle_disconnect_deletes_iff_empty (games : registry) (sid : string)
    (pre post : list (string * Game)) (room_code : string) (game : Game)
    (info : player_info) :
  games = pre ++ (room_code, game) :: post ->
  (forall rc g, In (rc, g) pre -> PyDict.get sid (players g) = None) ->
  PyDict.get sid (players game) = Some info ->
  PyDict.wf (players game) ->
  let r := handle_disconnect games sid in
  let game' := remove_player game sid in
  raised r = None /\
  (PyDict.mem room_code (games_after r) = false <->
   PyDict.len (players game') = 0) /\
  (PyDict.len (players game') = 0 ->
   games_after r = PyDict.del room_code games) /\
  (PyDict.len (players game') <> 0 ->
   games_after r = PyDict.set room_code game' games /\
   PyDict.get room_code (games_after r) = Some game') /\
  S (PyDict.len (players game')) = PyDict.len (players game) /\
  (PyDict.len (players game) = 1 ->
   PyDict.mem room_code (games_after r) = false) /\
  (PyDict.len (players game) >= 2 ->
   PyDict.get room_code (games_after r) = Some game') /\
  (forall rc, rc <> room_code ->
     PyDict.get rc (games_after r) = PyDict.get rc games) /\
  emitted r =
    [Emit (ToRoom room_code)
       (player_list_update (player_names game')
          (List.length (player_names game')));
     Emit (ToRoom room_code) (player_disconnected (name info))].
Proof.
  intros Hgames Hpre Hin Hwf. cbv zeta.
  assert (Hlen : S (PyDict.len (players (remove_player game sid))) =
                 PyDict.len (players game)).
  { rewrite remove_player_players. apply PyDictFacts.len_del_present;
      [exact Hwf|]. apply PyDictFacts.mem_get. eauto. }
  pose proof (disconnect_scan_first sid pre post room_code game info games
                Hpre Hin) as Hr.
  rewrite <- Hgames in Hr.
  change (disconnect_scan sid games games)
    with (handle_disconnect games sid) in Hr.
  rewrite Hr. simpl.
  destruct (Nat.eqb_spec (PyDict.len (players (remove_player game sid))) 0)
    as [E|E].
  - split; [reflexivity|].
    split; [split; [auto | intros _; apply PyDictFacts.mem_del_eq]|].
    split; [reflexivity|]. split; [contradiction|].
    split; [exact Hlen|].
    split; [intros _; apply PyDictFacts.mem_del_eq|].
    split; [intros H2; lia|]. split; [|reflexivity].
    intros rc Hrc. now apply PyDictFacts.get_del_ne.
  - split; [reflexivity|]. split.
    { rewrite PyDictFacts.mem_set_eq. split; [discriminate | contradiction]. }
    split; [contradiction|].
    split; [intros _; split; [reflexivity|apply PyDictFacts.get_set_eq]|].
    split; [exact Hlen|].
    split; [intros H1; lia|].
    split; [intros _; apply PyDictFacts.get_set_eq|]. split; [|reflexivity].
    intros rc Hrc. now apply PyDictFacts.get_set_ne.
Qed.

Lemma wf_players_alice :
  PyDict.wf (players (add_player (new_game "host") "s1" "Alice" 1%Z)).
Proof. repeat constructor. simpl. tauto. Defined.

Lemma wf_players_bob_done : PyDict.wf (players bob_done_game).
Proof.
  repeat constructor; simpl; [|tauto].
  intros [H|[]]. discriminate H.
Defined.

(** Alice, the only member of her room, leaves: the room is deleted.
    Bob leaves the room he shares with Alice: the room stays. *)
Lemma handle_disconnect_deletes_iff_empty_witness :
  PyDict.mem "ABCDEF" (games_after (handle_disconnect alice_games "s1")) =
    false /\
  PyDict.get "ABCDEF"
    (games_after (handle_disconnect [("ABCDEF", bob_done_game)] "s2")) =
    Some (remove_player bob_done_game "s2").
Proof.
  split.
  - apply (handle_disconnect_deletes_iff_empty alice_games "s1" [] []
             "ABCDEF" (add_player (new_game "host") "s1" "Alice" 1%Z)
             {| name := "Alice"; joined_at := 1%Z |} eq_refl).
    + intros rc g [].
    + reflexivity.
    + exact wf_players_alice.
    + reflexivity.
  - apply (handle_disconnect_deletes_iff_empty [("ABCDEF", bob_done_game)]
             "s2" [] [] "ABCDEF" bob_done_game
             {| name := "Bob"; joined_at := 2%Z |} eq_refl).
    + intros rc g [].
    + reflexivity.
    + exact wf_players_bob_done.
    + simpl. lia.
Defined.

(** ** [handle_create_game] *)

Lemma fresh_code_found (games : registry) (draws : list (nat -> nat))
    (rnd : nat -> nat) :
  In rnd draws ->
  PyDict.mem (generate_code rnd) games = false ->
  exists room_code,
    fresh_code games draws = Some room_code /\
    PyDict.mem room_code games = false.
Proof.
  induction draws as [|d r IH]; simpl; [intros []|].
  intros [->|Hin] Hfresh.
  - rewrite Hfresh. eauto.
  - destruct (PyDict.mem (generate_code d) games) eqn:E; eauto.
Qed.

Lemma fresh_code_sound (games : registry) (draws : list (nat -> nat))
    (room_code : string) :
  fresh_code games draws = Some room_code ->
  PyDict.mem room_code games = false /\
  exists rnd, In rnd draws /\ room_code = generate_code rnd.
Proof.
  induction draws as [|d r IH]; simpl; [discriminate|].
  destruct (PyDict.mem (generate_code d) games) eqn:E.
  - intros H. destruct (IH H) as (Hm & rnd & Hin & Hc). eauto 6.
  - intros [= <-]. eauto.
Qed.

(** Every room code has six characters. *)
Lemma generate_code_length (rnd : nat -> nat) :
  String.length (generate_code rnd) = 6.
Proof. reflexivity. Qed.

(** C10: when the random source eventually delivers a code that is not
    in use, [create_game] returns, without raising, having stored under
    the first such code a new game whose players, assignments, guesses
    and completions are empty and which is not started; the requesting
    connection is the host of the game and not one of its players, so
    the new room has zero members.  The rooms already present are
    unchanged, and the requester is told the code. *)
Theorem handle_create_game_empty_room (games : registry) (sid : string)
    (draws : list (nat -> nat)) (rnd : nat -> nat) :
  In rnd draws ->
  PyDict.mem (generate_code rnd) games = false ->
  exists room_code r game,
    handle_create_game games sid draws = Some r /\
    raised r = None /\
    PyDict.mem room_code games = false /\
    PyDict.get room_code (games_after r) = Some game /\
    players game = [] /\
    assignments game = [] /\
    guesses game = [] /\
    completed game = [] /\
    started game = false /\
    host_id game = sid /\
    PyDict.mem sid (players game) = false /\
    PyDict.len (players game) = 0 /\
    (forall rc, rc <> room_code ->
       PyDict.get rc (games_after r) = PyDict.get rc games) /\
    emitted r =
      [JoinRoom sid room_code; Emit (ToRequester sid) (game_created room_code)].
Proof.
  intros Hin Hfresh.
  destruct (fresh_code_found games draws rnd Hin Hfresh) as (rc & Hrc & Hm).
  unfold handle_create_game. rewrite Hrc.
  exists rc, (finish (PyDict.set rc (new_game sid) games)
                [JoinRoom sid rc; Emit (ToRequester sid) (game_created rc)]),
    (new_game sid).
  split; [reflexivity|]. split; [reflexivity|]. split; [exact Hm|].
  split; [apply PyDictFacts.get_set_eq|].
  do 8 (split; [reflexivity|]).
  split; [|reflexivity].
  intros rc' Hne. now apply PyDictFacts.get_set_ne.
Qed.

(** A second room is created while [ABCDEF] is taken: the first draw
    collides, the second is used. *)
Lemma handle_create_game_empty_room_witness :
  exists room_code r game,
    handle_create_game alice_games "h2" [rnd_abcdef; fun i => i + 1] =
      Some r /\
    raised r = None /\
    PyDict.mem room_code alice_games = false /\
    PyDict.get room_code (games_after r) = Some game /\
    players game = [] /\
    assignments game = [] /\
    guesses game = [] /\
    completed game = [] /\
    started game = false /\
    host_id game = "h2" /\
    PyDict.mem "h2" (players game) = false /\
    PyDict.len (players game) = 0 /\
    (forall rc, rc <> room_code ->
       PyDict.get rc (games_after r) = PyDict.get rc alice_games) /\
    emitted r =
      [JoinRoom "h2" room_code;
       Emit (ToRequester "h2") (game_created room_code)].
Proof.
  apply (handle_create_game_empty_room alice_games "h2"
           [rnd_abcdef; fun i => i + 1] (fun i => i + 1)).
  - right. left. reflexivity.
  - reflexivity.
Defined.

Example create_second_room :
  option_map games_after
    (handle_create_game alice_games "h2" [rnd_abcdef; fun i => i + 1]) =
  Some (alice_games ++ [("BCDEFG", new_game "h2")]).
Proof. vm_compute. reflexivity. Qed.

(** ** The representation invariant holds in every reachable registry *)

Lemma wf_new_game (sid : string) : wf_game (new_game sid).
Proof. repeat split; apply PyDictFacts.wf_nil. Qed.

Lemma wf_add_player (g : Game) (sid n : string) (now : Z) :
  wf_game g -> wf_game (add_player g sid n now).
Proof.
  intros (Hp & Ha & Hq & Hc). repeat split; simpl; try assumption;
    now apply PyDictFacts.wf_set.
Qed.

Lemma wf_remove_player (g : Game) (sid : string) :
  wf_game g -> wf_game (remove_player g sid).
Proof.
  intros (Hp & Ha & Hq & Hc).
  destruct (PyDict.get sid (players g)) as [info|] eqn:H.
  - rewrite (remove_player_present g sid info H).
    repeat split; simpl; now apply PyDictFacts.wf_del.
  - rewrite (remove_player_absent g sid H). now repeat split.
Qed.

Lemma wf_set_assignment (g : Game) (p q : string) :
  wf_game g -> wf_game (set_assignment g p q).
Proof.
  intros (Hp & Ha & Hq & Hc). repeat split; simpl; try assumption.
  now apply PyDictFacts.wf_set.
Qed.

Lemma wf_with_started (g : Game) (b : bool) :
  wf_game g -> wf_game (with_started g b).
Proof. intros H. exact H. Qed.

Lemma wf_make_guess (g g' : Game) (p s : string) (now : Z) (b : bool) :
  wf_game g -> make_guess g p s now = Return (g', b) -> wf_game g'.
Proof.
  intros (Hp & Ha & Hq & Hc) H.
  destruct (PyDict.get p (guesses g)) as [log|] eqn:Hlog.
  - destruct (make_guess_returns g p s now log Hlog)
      as (g1 & Hret & Eq & Ea & Ep & _ & _ & Ec).
    rewrite Hret in H. injection H as <- _.
    unfold wf_game. rewrite Eq, Ea, Ep, Ec.
    repeat split; try assumption; [now apply PyDictFacts.wf_set|].
    destruct (santa_eqb _ _); [now apply PyDictFacts.wf_set | assumption].
  - unfold make_guess in H. rewrite Hlog in H. discriminate.
Qed.

Lemma wf_registry_nil : wf_registry [].
Proof. split; [apply PyDictFacts.wf_nil | constructor]. Qed.

Lemma wf_registry_get (games : registry) (rc : string) (g : Game) :
  wf_registry games -> PyDict.get rc games = Some g -> wf_game g.
Proof.
  intros [_ Hall] H. apply PyDictFacts.get_In in H.
  rewrite Forall_forall in Hall. apply Hall.
  change g with (snd (rc, g)). now apply in_map.
Qed.

Lemma wf_registry_set (games : registry) (rc : string) (g : Game) :
  wf_registry games -> wf_game g -> wf_registry (PyDict.set rc g games).
Proof.
  intros [Hwf Hall] Hg. split; [now apply PyDictFacts.wf_set|].
  clear Hwf. unfold PyDict.values in *.
  induction games as [|[k v] r IH]; simpl.
  - constructor; [exact Hg | constructor].
  - inversion Hall as [|? ? Hv Hr]; subst.
    destruct (String.eqb rc k); simpl; constructor; auto.
Qed.

Lemma wf_registry_del (games : registry) (rc : string) :
  wf_registry games -> wf_registry (PyDict.del rc games).
Proof.
  intros [Hwf Hall]. split; [now apply PyDictFacts.wf_del|].
  clear Hwf. unfold PyDict.values in *.
  induction games as [|[k v] r IH]; simpl; [constructor|].
  inversion Hall as [|? ? Hv Hr]; subst.
  destruct (String.eqb rc k); simpl; [auto | constructor; auto].
Qed.

Lemma wf_disconnect_scan (sid : string) (snapshot : list (string * Game))
    (games : registry) :
  wf_registry games ->
  Forall wf_game (PyDict.values snapshot) ->
  wf_registry (games_after (disconnect_scan sid snapshot games)).
Proof.
  intros Hwf. unfold PyDict.values.
  induction snapshot as [|[rc g] r IH]; simpl; intros Hall; [exact Hwf|].
  inversion Hall as [|? ? Hg Hr]; subst.
  destruct (PyDict.get sid (players g)) as [info|]; [|auto].
  destruct (PyDict.len (players (remove_player g sid)) =? 0); simpl.
  - now apply wf_registry_del.
  - apply wf_registry_set; [exact Hwf | now apply wf_remove_player].
Qed.

(** Every handler preserves the invariant. *)
Lemma wf_step (games : registry) (e : event) (r : reply) :
  wf_registry games -> step games e = Some r ->
  wf_registry (games_after r).
Proof.
  intros Hwf. destruct e as [sid draws | sid rc p now | sid rc p q | sid rc
                            | sid rc p s now | sid rc | sid]; simpl.
  - unfold handle_create_game.
    destruct (fresh_code games draws) as [code|]; [|discriminate].
    intros [= <-]. simpl. apply wf_registry_set; [exact Hwf|].
    apply wf_new_game.
  - intros [= <-]. unfold handle_join_game.
    destruct (PyDict.get (upper rc) games) as [g|] eqn:Hg; [|exact Hwf].
    destruct (started g); [exact Hwf|].
    destruct (name_taken _ _); [exact Hwf|]. simpl.
    apply wf_registry_set; [exact Hwf|]. apply wf_add_player.
    now apply (wf_registry_get games (upper rc)).
  - intros [= <-]. unfold handle_submit_assignment.
    destruct (PyDict.get rc games) as [g|] eqn:Hg; [|exact Hwf]. simpl.
    apply wf_registry_set; [exact Hwf|]. apply wf_set_assignment.
    now apply (wf_registry_get games rc).
  - intros [= <-]. unfold handle_start_game.
    destruct (PyDict.get rc games) as [g|] eqn:Hg; [|exact Hwf].
    destruct (negb (String.eqb sid (host_id g))); [exact Hwf|].
    destruct (negb _); [exact Hwf|]. simpl.
    apply wf_registry_set; [exact Hwf|]. apply wf_with_started.
    now apply (wf_registry_get games rc).
  - intros [= <-]. unfold handle_make_guess.
    destruct (PyDict.get rc games) as [g|] eqn:Hg; [|exact Hwf].
    destruct (negb (started g)); [exact Hwf|].
    destruct (PyDict.mem p (completed g)); [exact Hwf|].
    destruct (make_guess g p s now) as [[g' b]|ex] eqn:Hm; [|exact Hwf].
    assert (Hg' : wf_registry (PyDict.set rc g' games)).
    { apply wf_registry_set; [exact Hwf|].
      apply (wf_make_guess g g' p s now b); [|exact Hm].
      now apply (wf_registry_get games rc). }
    destruct (PyDict.get p (guesses g')); [|exact Hg'].
    destruct b; exact Hg'.
  - intros [= <-]. unfold handle_get_game_state.
    destruct (PyDict.get rc games); exact Hwf.
  - intros [= <-]. unfold handle_disconnect.
    apply wf_disconnect_scan; [exact Hwf | apply Hwf].
Qed.

Lemma wf_run (trace : list event) (games games' : registry) :
  wf_registry games -> run games trace = Some games' -> wf_registry games'.
Proof.
  revert games. induction trace as [|e rest IH]; simpl; intros games Hwf.
  - now intros [= <-].
  - destruct (step games e) as [r|] eqn:Hs; [|discriminate].
    apply IH. now apply (wf_step games e).
Qed.

Lemma wf_reachable (games : registry) : reachable games -> wf_registry games.
Proof. intros [trace H]. exact (wf_run trace [] games wf_registry_nil H). Qed.

(** * Further properties of the code *)

(** ** Room codes *)

Lemma choice_in_alphabet (r : nat) :
  In (choice code_alphabet r) (list_ascii_of_string code_alphabet) /\
  upper_ascii (choice code_alphabet r) = choice code_alphabet r.
Proof.
  unfold choice. change (String.length code_alphabet) with 36.
  pose proof (Nat.mod_upper_bound r 36) as Hlt.
  destruct (r mod 36) as [|n]; [split; [simpl; tauto | reflexivity]|].
  do 35 (destruct n as [|n]; [split; [simpl; tauto | reflexivity]|]).
  lia.
Qed.

Lemma generate_code_upper (rnd : nat -> nat) :
  upper (generate_code rnd) = generate_code rnd.
Proof.
  unfold generate_code. simpl.
  now rewrite !(proj2 (choice_in_alphabet _)).
Qed.

(** Whatever the random source delivers, a generated room code has six
    characters, all of them upper-case letters or digits, and
    upper-casing it gives it back. *)
Theorem generate_code_shape (rnd : nat -> nat) :
  String.length (generate_code rnd) = 6 /\
  (forall c, In c (list_ascii_of_string (generate_code rnd)) ->
             In c (list_ascii_of_string code_alphabet)) /\
  upper (generate_code rnd) = generate_code rnd.
Proof.
  split; [reflexivity|]. split.
  - intros c. unfold generate_code.
    rewrite list_ascii_of_string_of_list_ascii, in_map_iff.
    intros (i & <- & _). apply choice_in_alphabet.
  - apply generate_code_upper.
Qed.

(** ** More facts about dictionaries *)

Module PyDictMore.
Import PyDict.

Section Facts.
Context {V : Type}.
Implicit Types (d : dict V) (k : string) (v : V).

(** Insert then delete a key that was absent: the dict is as before. *)
Lemma del_set_absent k v d : mem k d = false -> del k (set k v d) = d.
Proof.
  unfold mem. induction d as [|[k0 v0] r IH]; simpl.
  - intros _. now rewrite String.eqb_refl.
  - destruct (String.eqb_spec k k0) as [->|Hne]; [discriminate|].
    intros H. simpl. destruct (String.eqb_spec k k0); [contradiction|].
    now rewrite IH.
Qed.

Lemma get_set_Some k k' v v' d :
  get k' (set k v d) = Some v' ->
  (k' = k /\ v' = v) \/ (k' <> k /\ get k' d = Some v').
Proof.
  destruct (String.eqb_spec k' k) as [->|Hne].
  - rewrite PyDictFacts.get_set_eq. intros [= <-]. now left.
  - rewrite PyDictFacts.get_set_ne by assumption. now right.
Qed.

Lemma get_del_Some k k' v' d :
  get k' (del k d) = Some v' -> k' <> k /\ get k' d = Some v'.
Proof.
  destruct (String.eqb_spec k' k) as [->|Hne].
  - rewrite PyDictFacts.get_del_eq. discriminate.
  - rewrite PyDictFacts.get_del_ne by assumption. now split.
Qed.

Lemma mem_set_mono k k' v d : mem k' d = true -> mem k' (set k v d) = true.
Proof.
  intros H. destruct (String.eqb_spec k' k) as [->|Hne].
  - apply PyDictFacts.mem_set_eq.
  - now rewrite PyDictFacts.mem_set_ne.
Qed.

Lemma values_set_In k v d (x : V) :
  In x (values (set k v d)) -> x = v \/ In x (values d).
Proof.
  unfold values. induction d as [|[k0 v0] r IH]; simpl.
  - intuition.
  - destruct (String.eqb k k0); simpl; intuition.
Qed.

Lemma values_del_In k d (x : V) : In x (values (del k d)) -> In x (values d).
Proof.
  unfold values. induction d as [|[k0 v0] r IH]; simpl; [tauto|].
  destruct (String.eqb k k0); simpl; intuition.
Qed.

Lemma get_values k v d : get k d = Some v -> In v (values d).
Proof.
  intros H. apply PyDictFacts.get_In in H. unfold values.
  change v with (snd (k, v)). now apply in_map.
Qed.

Lemma Forall_values_set (P : V -> Prop) k v d :
  Forall P (values d) -> P v -> Forall P (values (set k v d)).
Proof.
  intros Hall Hv. rewrite Forall_forall in *. intros x Hx.
  apply values_set_In in Hx. destruct Hx as [->|Hx]; auto.
Qed.

Lemma Forall_values_del (P : V -> Prop) k d :
  Forall P (values d) -> Forall P (values (del k d)).
Proof.
  intros Hall. rewrite Forall_forall in *. intros x Hx.
  apply values_del_In in Hx. auto.
Qed.

Section Projection.
Context {B : Type} (f : V -> B).

Lemma NoDup_map_values_set k v d :
  NoDup (map f (values d)) ->
  ~ In (f v) (map f (values d)) ->
  NoDup (map f (values (set k v d))).
Proof.
  unfold values. induction d as [|[k0 v0] r IH]; simpl.
  - intros _ _. constructor; [simpl; tauto | constructor].
  - intros Hnd Hnotin. inversion Hnd as [|? ? Hv0 Hr]; subst.
    destruct (String.eqb k k0); simpl.
    + constructor; [tauto | assumption].
    + constructor; [|apply IH; tauto].
      rewrite in_map_iff. intros (x & Hfx & Hx).
      apply (values_set_In k v r) in Hx. destruct Hx as [->|Hx].
      * apply Hnotin. left. now symmetry.
      * apply Hv0. rewrite <- Hfx. now apply in_map.
Qed.

Lemma NoDup_map_values_del k d :
  NoDup (map f (values d)) -> NoDup (map f (values (del k d))).
Proof.
  unfold values. induction d as [|[k0 v0] r IH]; simpl; [auto|].
  intros Hnd. inversion Hnd as [|? ? Hv0 Hr]; subst.
  destruct (String.eqb k k0); simpl; [auto|].
  constructor; [|auto].
  rewrite in_map_iff. intros (x & Hfx & Hx).
  apply (values_del_In k r) in Hx. apply Hv0. rewrite <- Hfx.
  now apply in_map.
Qed.

(** In a dict whose values have distinct [f]-images, two entries with
    the same image are the same entry. *)
Lemma NoDup_map_values_key k k' v v' d :
  NoDup (map f (values d)) ->
  In (k, v) d -> In (k', v') d -> f v = f v' -> k = k'.
Proof.
  unfold values. induction d as [|[k0 v0] r IH]; simpl; [tauto|].
  intros Hnd H1 H2 E. inversion Hnd as [|? ? Hv0 Hr]; subst.
  destruct H1 as [H1|H1], H2 as [H2|H2].
  - congruence.
  - inversion H1; subst. exfalso. apply Hv0. rewrite E.
    apply in_map. apply (in_map snd) in H2. exact H2.
  - inversion H2; subst. exfalso. apply Hv0. rewrite <- E.
    apply in_map. apply (in_map snd) in H1. exact H1.
  - eauto.
Qed.

(** After deleting the entry of [k], no remaining value has the image
    of the deleted one. *)
Lemma NoDup_map_values_del_fresh k v d (x : V) :
  wf d -> NoDup (map f (values d)) ->
  get k d = Some v -> In x (values (del k d)) -> f x <> f v.
Proof.
  unfold wf, keys, values. induction d as [|[k0 v0] r IH]; simpl;
    [discriminate|].
  intros Hwf Hnd Hget Hx.
  inversion Hwf as [|? ? Hk0 Hkr]; inversion Hnd as [|? ? Hv0 Hr]; subst.
  destruct (String.eqb_spec k k0) as [->|Hne].
  - injection Hget as <-. apply (values_del_In k0 r) in Hx.
    intros E. apply Hv0. rewrite <- E. now apply in_map.
  - simpl in Hx. destruct Hx as [<-|Hx]; [|now apply IH].
    intros E. apply Hv0. rewrite E. apply in_map.
    now apply (get_values k).
Qed.
End Projection.
End Facts.

End PyDictMore.

(** ** Creating, joining and leaving a room *)




(** A player who joins and leaves without having submitted anything
    leaves no trace: if the connection and the name were unknown to the
    game, [remove_player] undoes [add_player]. *)
Theorem remove_player_undoes_add_player (g : Game) (sid n : string) (now : Z) :
  PyDict.mem sid (players g) = false ->
  PyDict.mem n (guesses g) = false ->
  PyDict.mem n (assignments g) = false ->
  PyDict.mem n (completed g) = false ->
  remove_player (add_player g sid n now) sid = g.
Proof.
  intros Hp Hq Ha Hc.
  rewrite (remove_player_present (add_player g sid n now) sid
             {| name := n; joined_at := now |}).
  - destruct g as [h pl a q c st]. simpl in *. f_equal.
    + now apply PyDictMore.del_set_absent.
    + now apply PyDictFacts.del_absent.
    + now apply PyDictMore.del_set_absent.
    + now apply PyDictFacts.del_absent.
  - apply PyDictFacts.get_set_eq.
Qed.

Lemma remove_player_undoes_add_player_witness :
  remove_player (add_player lobby_game "s3" "Carol" 3%Z) "s3" = lobby_game.
Proof.
  apply (remove_player_undoes_add_player lobby_game "s3" "Carol" 3%Z);
    reflexivity.
Defined.

(** ** Guessing *)

(** The full reply to a guess that passes the checks, for a player with
    a guess history: the requester is told the verdict and the number
    of guesses made so far, the new one included; on a correct guess
    the room is also told the completion, with the number of
    completions so far plus one as rank, and the leaderboard.  The
    game of the room is replaced by the one [make_guess] returns. *)
Theorem handle_make_guess_reply (games : registry)
    (sid room_code p s : string) (now : Z) (game : Game)
    (log : list string) :
  PyDict.get room_code games = Some game ->
  started game = true ->
  PyDict.mem p (completed game) = false ->
  PyDict.get p (guesses game) = Some log ->
  exists game',
    make_guess game p s now =
      Return (game', santa_eqb (find_santa (assignments game) p) s) /\
    handle_make_guess games sid room_code p s now =
      finish (PyDict.set room_code game' games)
        (Emit (ToRequester sid)
           (guess_result (santa_eqb (find_santa (assignments game) p) s) s
              (List.length log + 1)) ::
         if santa_eqb (find_santa (assignments game) p) s
         then
           [Emit (ToRoom room_code)
              (player_completed p s (List.length log + 1)
                 (S (PyDict.len (completed game))));
            Emit (ToRoom room_code)
              (leaderboard_update (get_leaderboard game')
                 (is_complete game'))]
         else []).
Proof.
  intros Hg Hs Hc Hlog.
  destruct (make_guess_returns game p s now log Hlog)
    as (g' & Hret & Hq & _ & _ & _ & _ & Hcomp).
  exists g'. split; [exact Hret|].
  unfold handle_make_guess. rewrite Hg, Hs, Hc, Hret. simpl.
  rewrite Hq, PyDictFacts.get_set_eq, length_app. simpl.
  destruct (santa_eqb (find_santa (assignments game) p) s); [|reflexivity].
  rewrite Hcomp, PyDictFacts.len_set, Hc. reflexivity.
Qed.

(** Pat's first guess, the right one. *)
Lemma handle_make_guess_reply_witness :
  exists game',
    make_guess two_santas_game "Pat" "Alice" 9%Z =
      Return (game',
              santa_eqb (find_santa (assignments two_santas_game) "Pat")
                "Alice") /\
    handle_make_guess [("ABCDEF", two_santas_game)] "s3" "ABCDEF" "Pat"
      "Alice" 9%Z =
      finish (PyDict.set "ABCDEF" game' [("ABCDEF", two_santas_game)])
        (Emit (ToRequester "s3")
           (guess_result
              (santa_eqb (find_santa (assignments two_santas_game) "Pat")
                 "Alice") "Alice" (List.length (@nil string) + 1)) ::
         if santa_eqb (find_santa (assignments two_santas_game) "Pat")
              "Alice"
         then
           [Emit (ToRoom "ABCDEF")
              (player_completed "Pat" "Alice" (List.length (@nil string) + 1)
                 (S (PyDict.len (completed two_santas_game))));
            Emit (ToRoom "ABCDEF")
              (leaderboard_update (get_leaderboard game')
                 (is_complete game'))]
         else []).
Proof.
  apply (handle_make_guess_reply [("ABCDEF", two_santas_game)] "s3" "ABCDEF"
           "Pat" "Alice" 9%Z two_santas_game []);
    reflexivity.
Defined.

(** ** Submitting assignments *)

Lemma set_set_same {V : Type} (k : string) (v1 v2 : V) (d : PyDict.dict V) :
  PyDict.set k v2 (PyDict.set k v1 d) = PyDict.set k v2 d.
Proof.
  induction d as [|[k0 v0] r IH]; simpl.
  - now rewrite String.eqb_refl.
  - destruct (String.eqb_spec k k0) as [->|Hne]; simpl.
    + now rewrite String.eqb_refl.
    + destruct (String.eqb_spec k k0); [contradiction|]. now rewrite IH.
Qed.

(** A player who submits again overwrites: after two submissions under
    the same name the registry is the one that the second submission
    alone would have produced, so the name still counts once and the
    later recipient stands. *)
Theorem handle_submit_assignment_overwrites (games : registry)
    (sid1 sid2 room_code p q1 q2 : string) :
  games_after
    (handle_submit_assignment
       (games_after (handle_submit_assignment games sid1 room_code p q1))
       sid2 room_code p q2) =
  games_after (handle_submit_assignment games sid2 room_code p q2).
Proof.
  unfold handle_submit_assignment.
  destruct (PyDict.get room_code games) as [game|] eqn:Hg; simpl.
  - rewrite PyDictFacts.get_set_eq. simpl. rewrite set_set_same.
    unfold set_assignment, with_assignments. simpl.
    now rewrite set_set_same.
  - now rewrite Hg.
Qed.

(** A submission is accepted for any existing room, whatever the phase
    and whoever the names are: only the assignment under the
    submitter's name changes, and the room is told the totals and
    whether there are now as many assignments as players. *)
Theorem handle_submit_assignment_frame (games : registry)
    (sid room_code p q : string) (game : Game) :
  PyDict.get room_code games = Some game ->
  let r := handle_submit_assignment games sid room_code p q in
  exists game',
    raised r = None /\
    PyDict.get room_code (games_after r) = Some game' /\
    (forall rc, rc <> room_code ->
       PyDict.get rc (games_after r) = PyDict.get rc games) /\
    PyDict.get p (assignments game') = Some q /\
    (forall n, n <> p ->
       PyDict.get n (assignments game') = PyDict.get n (assignments game)) /\
    PyDict.len (assignments game') =
      (if PyDict.mem p (assignments game) then PyDict.len (assignments game)
       else S (PyDict.len (assignments game))) /\
    players game' = players game /\
    guesses game' = guesses game /\
    completed game' = completed game /\
    started game' = started game /\
    host_id game' = host_id game /\
    emitted r =
      [Emit (ToRoom room_code)
         (assignment_submitted p (PyDict.len (players game))
            (PyDict.len (assignments game'))
            (PyDict.len (assignments game') =? PyDict.len (players game)))].
Proof.
  intros Hg. cbv zeta. unfold handle_submit_assignment. rewrite Hg.
  exists (set_assignment game p q). simpl.
  split; [reflexivity|]. split; [apply PyDictFacts.get_set_eq|].
  split; [intros rc Hrc; now apply PyDictFacts.get_set_ne|].
  split; [apply PyDictFacts.get_set_eq|].
  split; [intros n Hn; now apply PyDictFacts.get_set_ne|].
  split; [apply PyDictFacts.len_set|].
  repeat split.
Qed.

(** A submission in a started game, under a name that is no member. *)
Lemma handle_submit_assignment_frame_witness :
  exists game',
    raised (handle_submit_assignment [("ABCDEF", bob_done_game)] "s7"
              "ABCDEF" "Zed" "Bob") = None /\
    PyDict.get "ABCDEF"
      (games_after
         (handle_submit_assignment [("ABCDEF", bob_done_game)] "s7"
            "ABCDEF" "Zed" "Bob")) = Some game' /\
    PyDict.get "Zed" (assignments game') = Some "Bob".
Proof.
  destruct (handle_submit_assignment_frame [("ABCDEF", bob_done_game)] "s7"
              "ABCDEF" "Zed" "Bob" bob_done_game eq_refl)
    as (g' & H1 & H2 & _ & H3 & _).
  exists g'. split; [exact H1|]. split; [exact H2 | exact H3].
Defined.

(** ** Error replies *)

Ltac no_error_in H :=
  simpl in H;
  repeat (destruct H as [H|H]; [discriminate H|]);
  contradiction.

Ltac only_error_in H :=
  simpl in H; destruct H as [H|H]; [|contradiction];
  injection H as <- <-; repeat split.

Lemma disconnect_scan_no_error (sid : string)
    (snapshot : list (string * Game)) (games : registry)
    (a : audience) (msg : string) :
  ~ In (Emit a (error msg)) (emitted (disconnect_scan sid snapshot games)).
Proof.
  induction snapshot as [|[rc g] r IH]; simpl; [tauto|].
  destruct (PyDict.get sid (players g)); [|exact IH].
  destruct (PyDict.len (players (remove_player g sid)) =? 0);
    intros H; no_error_in H.
Qed.

(** Whenever a handler emits an [error] event, that event is the only
    action of the handler, it is addressed to the requesting connection
    alone, no exception is raised and the registry is left exactly as
    it was. *)
Theorem error_reply_changes_nothing (games : registry) (e : event)
    (r : reply) (a : audience) (msg : string) :
  step games e = Some r ->
  In (Emit a (error msg)) (emitted r) ->
  games_after r = games /\
  raised r = None /\
  emitted r = [Emit (ToRequester (sid_of e)) (error msg)].
Proof.
  destruct e as [sid draws | sid rc p now | sid rc p q | sid rc
                | sid rc p s now | sid rc | sid]; simpl.
  - unfold handle_create_game.
    destruct (fresh_code games draws); [|discriminate].
    intros [= <-] H. no_error_in H.
  - intros [= <-]. unfold handle_join_game.
    destruct (PyDict.get (upper rc) games) as [g|];
      [|intros H; only_error_in H].
    destruct (started g); [intros H; only_error_in H|].
    destruct (name_taken _ _); intros H; [only_error_in H | no_error_in H].
  - intros [= <-]. unfold handle_submit_assignment.
    destruct (PyDict.get rc games) as [g|]; intros H;
      [no_error_in H | only_error_in H].
  - intros [= <-]. unfold handle_start_game.
    destruct (PyDict.get rc games) as [g|]; [|intros H; only_error_in H].
    destruct (negb (String.eqb sid (host_id g)));
      [intros H; only_error_in H|].
    destruct (negb _); intros H; [only_error_in H | no_error_in H].
  - intros [= <-]. unfold handle_make_guess.
    destruct (PyDict.get rc games) as [g|]; [|intros H; only_error_in H].
    destruct (negb (started g)); [intros H; only_error_in H|].
    destruct (PyDict.mem p (completed g)); [intros H; only_error_in H|].
    destruct (make_guess g p s now) as [[g' b]|ex];
      [|intros H; no_error_in H].
    destruct (PyDict.get p (guesses g')); [|intros H; no_error_in H].
    destruct b; intros H; no_error_in H.
  - intros [= <-]. unfold handle_get_game_state.
    destruct (PyDict.get rc games) as [g|]; intros H;
      [no_error_in H | only_error_in H].
  - intros [= <-] H. exfalso.
    exact (disconnect_scan_no_error sid _ games a msg H).
Qed.

Lemma error_reply_changes_nothing_witness :
  games_after (handle_start_game lobby_games "s1" "ABCDEF") = lobby_games /\
  raised (handle_start_game lobby_games "s1" "ABCDEF") = None /\
  emitted (handle_start_game lobby_games "s1" "ABCDEF") =
    [Emit (ToRequester "s1") (error "Only host can start game")].
Proof.
  apply (error_reply_changes_nothing lobby_games (start_game "s1" "ABCDEF")
           _ (ToRequester "s1") "Only host can start game" eq_refl).
  left. reflexivity.
Defined.

(** ** What no event does: un-start a game or change its host *)

Lemma get_after_set (games : registry) (rc0 rc : string)
    (g0 g0' g g' : Game) :
  PyDict.get rc0 games = Some g0 ->
  PyDict.get rc games = Some g ->
  PyDict.get rc (PyDict.set rc0 g0' games) = Some g' ->
  (g = g0 /\ g' = g0') \/ g' = g.
Proof.
  intros H0 H H'. apply PyDictMore.get_set_Some in H'.
  destruct H' as [[-> ->]|[_ H']]; [left; split; congruence | right; congruence].
Qed.

Lemma make_guess_keeps (g g' : Game) (p s : string) (now : Z) (b : bool) :
  make_guess g p s now = Return (g', b) ->
  host_id g' = host_id g /\ started g' = started g /\
  players g' = players g /\ assignments g' = assignments g.
Proof.
  intros H. destruct (PyDict.get p (guesses g)) as [log|] eqn:Hlog.
  - destruct (make_guess_returns g p s now log Hlog)
      as (g1 & Hret & _ & Ea & Ep & Es & Eh & _).
    rewrite Hret in H. injection H as <- _. auto.
  - unfold make_guess in H. rewrite Hlog in H. discriminate.
Qed.

Lemma remove_player_keeps (g : Game) (sid : string) :
  host_id (remove_player g sid) = host_id g /\
  started (remove_player g sid) = started g.
Proof.
  destruct (PyDict.get sid (players g)) as [info|] eqn:H.
  - rewrite (remove_player_present g sid info H). split; reflexivity.
  - rewrite (remove_player_absent g sid H). split; reflexivity.
Qed.

(** The scan either finds no room of the connection and does nothing,
    or processes one room of the snapshot. *)
Lemma disconnect_scan_cases (sid : string) (snapshot : list (string * Game))
    (games : registry) :
  disconnect_scan sid snapshot games = finish games [] \/
  exists rc g info,
    In (rc, g) snapshot /\
    PyDict.get sid (players g) = Some info /\
    games_after (disconnect_scan sid snapshot games) =
      (if PyDict.len (players (remove_player g sid)) =? 0
       then PyDict.del rc games
       else PyDict.set rc (remove_player g sid) games).
Proof.
  induction snapshot as [|[rc g] r IH]; simpl; [now left|].
  destruct (PyDict.get sid (players g)) as [info|] eqn:E.
  - right. exists rc, g, info. split; [now left|]. split; [exact E|].
    now destruct (PyDict.len _ =? 0).
  - destruct IH as [IH|(rc' & g' & info & Hin & Hget & Hafter)];
      [now left|].
    right. exists rc', g', info. split; [now right|]. now split.
Qed.

(** Whatever the event, a room that is in the registry before and after
    it keeps its host, and if it was started it still is: there is no
    way back to the lobby. *)
Theorem step_keeps_host_and_start (games : registry) (e : event) (r : reply)
    (room_code : string) (g g' : Game) :
  PyDict.wf games ->
  step games e = Some r ->
  PyDict.get room_code games = Some g ->
  PyDict.get room_code (games_after r) = Some g' ->
  host_id g' = host_id g /\ (started g = true -> started g' = true).
Proof.
  intros Hwf Hstep Hg Hg'.
  assert (Hsame : g' = g -> host_id g' = host_id g /\
                           (started g = true -> started g' = true))
    by (intros ->; auto).
  destruct e as [sid draws | sid rc p now | sid rc p q | sid rc
                | sid rc p s now | sid rc | sid]; simpl in Hstep.
  - unfold handle_create_game in Hstep.
    destruct (fresh_code games draws) as [code|] eqn:Hc; [|discriminate].
    injection Hstep as <-. simpl in Hg'.
    apply PyDictMore.get_set_Some in Hg'.
    destruct Hg' as [[-> _]|[_ Hg']]; [|apply Hsame; congruence].
    apply fresh_code_sound in Hc. destruct Hc as [Hc _].
    apply PyDictFacts.mem_false_get in Hc. congruence.
  - injection Hstep as <-. unfold handle_join_game in Hg'.
    destruct (PyDict.get (upper rc) games) as [g0|] eqn:H0;
      [|apply Hsame; simpl in Hg'; congruence].
    destruct (started g0); [apply Hsame; simpl in Hg'; congruence|].
    destruct (name_taken _ _); [apply Hsame; simpl in Hg'; congruence|].
    simpl in Hg'.
    destruct (get_after_set _ _ _ _ _ _ _ H0 Hg Hg') as [[-> ->]|E];
      [split; auto | now apply Hsame].
  - injection Hstep as <-. unfold handle_submit_assignment in Hg'.
    destruct (PyDict.get rc games) as [g0|] eqn:H0;
      [|apply Hsame; simpl in Hg'; congruence].
    simpl in Hg'.
    destruct (get_after_set _ _ _ _ _ _ _ H0 Hg Hg') as [[-> ->]|E];
      [split; auto | now apply Hsame].
  - injection Hstep as <-. unfold handle_start_game in Hg'.
    destruct (PyDict.get rc games) as [g0|] eqn:H0;
      [|apply Hsame; simpl in Hg'; congruence].
    destruct (negb (String.eqb sid (host_id g0)));
      [apply Hsame; simpl in Hg'; congruence|].
    destruct (negb _); [apply Hsame; simpl in Hg'; congruence|].
    simpl in Hg'.
    destruct (get_after_set _ _ _ _ _ _ _ H0 Hg Hg') as [[-> ->]|E];
      [split; auto | now apply Hsame].
  - injection Hstep as <-. unfold handle_make_guess in Hg'.
    destruct (PyDict.get rc games) as [g0|] eqn:H0;
      [|apply Hsame; simpl in Hg'; congruence].
    destruct (negb (started g0)); [apply Hsame; simpl in Hg'; congruence|].
    destruct (PyDict.mem p (completed g0));
      [apply Hsame; simpl in Hg'; congruence|].
    destruct (make_guess g0 p s now) as [[g1 b]|ex] eqn:Hm;
      [|apply Hsame; simpl in Hg'; congruence].
    destruct (make_guess_keeps g0 g1 p s now b Hm) as (Eh & Es & _).
    assert (Hset : PyDict.get room_code (PyDict.set rc g1 games) = Some g').
    { destruct (PyDict.get p (guesses g1)); [destruct b|]; exact Hg'. }
    destruct (get_after_set _ _ _ _ _ _ _ H0 Hg Hset) as [[-> ->]|E];
      [split; congruence | now apply Hsame].
  - injection Hstep as <-. unfold handle_get_game_state in Hg'.
    destruct (PyDict.get rc games); apply Hsame; simpl in Hg'; congruence.
  - injection Hstep as <-. unfold handle_disconnect in Hg'.
    destruct (disconnect_scan_cases sid (PyDict.items games) games)
      as [E|(rc0 & g0 & info & Hin & Hget & E)].
    + rewrite E in Hg'. apply Hsame. simpl in Hg'. congruence.
    + rewrite E in Hg'. apply (PyDictFacts.In_get _ _ _ Hwf) in Hin.
      destruct (remove_player_keeps g0 sid) as [Eh Es].
      destruct (PyDict.len (players (remove_player g0 sid)) =? 0).
      * apply PyDictMore.get_del_Some in Hg'. apply Hsame.
        destruct Hg' as [_ Hg']. congruence.
      * destruct (get_after_set _ _ _ _ _ _ _ Hin Hg Hg') as [[-> ->]|E'];
          [split; congruence | now apply Hsame].
Qed.

Lemma wf_bob_done_registry : PyDict.wf [("ABCDEF", bob_done_game)].
Proof. repeat constructor. simpl. tauto. Defined.

(** Bob leaves the started game he shares with Alice. *)
Lemma step_keeps_host_and_start_witness :
  host_id (remove_player bob_done_game "s2") = host_id bob_done_game /\
  (started bob_done_game = true ->
   started (remove_player bob_done_game "s2") = true).
Proof.
  apply (step_keeps_host_and_start [("ABCDEF", bob_done_game)]
           (disconnect "s2") _ "ABCDEF" bob_done_game
           (remove_player bob_done_game "s2") wf_bob_done_registry eq_refl);
    reflexivity.
Defined.

(** ** Invariants of the reachable registries *)

Section Preservation.
Variable P : Game -> Prop.
Hypothesis P_new : forall sid, P (new_game sid).
Hypothesis P_add :
  forall g sid n now,
    P g -> started g = false ->
    name_taken (PyDict.values (players g)) n = false ->
    P (add_player g sid n now).
Hypothesis P_assign : forall g p q, P g -> P (set_assignment g p q).
Hypothesis P_start : forall g, P g -> P (with_started g true).
Hypothesis P_guess :
  forall g p s now g' b,
    P g -> started g = true -> PyDict.mem p (completed g) = false ->
    make_guess g p s now = Return (g', b) -> P g'.
Hypothesis P_remove : forall g sid, P g -> P (remove_player g sid).

Lemma disconnect_scan_preserves (sid : string)
    (snapshot : list (string * Game)) (games : registry) :
  Forall P (PyDict.values games) ->
  Forall P (PyDict.values snapshot) ->
  Forall P (PyDict.values (games_after (disconnect_scan sid snapshot games))).
Proof.
  intros Hall. induction snapshot as [|[rc g] r IH]; simpl; intros Hsnap;
    [exact Hall|].
  inversion Hsnap as [|? ? Hg Hr]; subst.
  destruct (PyDict.get sid (players g)); [|auto].
  destruct (PyDict.len (players (remove_player g sid)) =? 0); simpl.
  - now apply PyDictMore.Forall_values_del.
  - apply PyDictMore.Forall_values_set; auto.
Qed.

Lemma step_preserves (games : registry) (e : event) (r : reply) :
  Forall P (PyDict.values games) -> step games e = Some r ->
  Forall P (PyDict.values (games_after r)).
Proof.
  intros Hall.
  assert (Hget : forall rc g, PyDict.get rc games = Some g -> P g).
  { intros rc g H. rewrite Forall_forall in Hall. apply Hall.
    now apply (PyDictMore.get_values rc). }
  destruct e as [sid draws | sid rc p now | sid rc p q | sid rc
                | sid rc p s now | sid rc | sid]; simpl.
  - unfold handle_create_game.
    destruct (fresh_code games draws); [|discriminate].
    intros [= <-]. simpl. now apply PyDictMore.Forall_values_set.
  - intros [= <-]. unfold handle_join_game.
    destruct (PyDict.get (upper rc) games) as [g|] eqn:Hg; [|exact Hall].
    destruct (started g) eqn:Hs; [exact Hall|].
    destruct (name_taken _ _) eqn:Ht; [exact Hall|]. simpl.
    apply PyDictMore.Forall_values_set; eauto.
  - intros [= <-]. unfold handle_submit_assignment.
    destruct (PyDict.get rc games) as [g|] eqn:Hg; [|exact Hall]. simpl.
    apply PyDictMore.Forall_values_set; eauto.
  - intros [= <-]. unfold handle_start_game.
    destruct (PyDict.get rc games) as [g|] eqn:Hg; [|exact Hall].
    destruct (negb (String.eqb sid (host_id g))); [exact Hall|].
    destruct (negb _); [exact Hall|]. simpl.
    apply PyDictMore.Forall_values_set; eauto.
  - intros [= <-]. unfold handle_make_guess.
    destruct (PyDict.get rc games) as [g|] eqn:Hg; [|exact Hall].
    destruct (started g) eqn:Hs; [|exact Hall]. simpl.
    destruct (PyDict.mem p (completed g)) eqn:Hc; [exact Hall|].
    destruct (make_guess g p s now) as [[g' b]|ex] eqn:Hm; [|exact Hall].
    assert (Hg' : Forall P (PyDict.values (PyDict.set rc g' games)))
      by (apply PyDictMore.Forall_values_set; eauto).
    destruct (PyDict.get p (guesses g')); [|exact Hg'].
    destruct b; exact Hg'.
  - intros [= <-]. unfold handle_get_game_state.
    destruct (PyDict.get rc games); exact Hall.
  - intros [= <-]. now apply disconnect_scan_preserves.
Qed.

Lemma run_preserves (trace : list event) (games games' : registry) :
  Forall P (PyDict.values games) -> run games trace = Some games' ->
  Forall P (PyDict.values games').
Proof.
  revert games. induction trace as [|e rest IH]; simpl; intros games Hall.
  - now intros [= <-].
  - destruct (step games e) as [r|] eqn:Hs; [|discriminate].
    apply IH. now apply (step_preserves games e).
Qed.

Lemma reachable_preserves (games : registry) (rc : string) (g : Game) :
  reachable games -> PyDict.get rc games = Some g -> P g.
Proof.
  intros [trace H] Hg.
  assert (Hall : Forall P (PyDict.values games))
    by (apply (run_preserves trace [] games); [constructor | exact H]).
  rewrite Forall_forall in Hall. apply Hall.
  now apply (PyDictMore.get_values rc).
Qed.
End Preservation.

Lemma name_taken_false (infos : list player_info) (n : string) :
  name_taken infos n = false -> ~ In n (map name infos).
Proof.
  intros H Hin. apply in_map_iff in Hin. destruct Hin as (info & Hn & Hin).
  assert (name_taken infos n = true) by (apply name_taken_spec; eauto).
  congruence.
Qed.

Lemma members_inv_add (g : Game) (sid n : string) (now : Z) :
  members_inv g ->
  name_taken (PyDict.values (players g)) n = false ->
  members_inv (add_player g sid n now).
Proof.
  intros [Hnd Hq] Ht. apply name_taken_false in Ht. split.
  - unfold player_names. simpl.
    now apply (PyDictMore.NoDup_map_values_set name).
  - simpl. intros info Hin. apply PyDictMore.values_set_In in Hin.
    destruct Hin as [->|Hin]; simpl.
    + apply PyDictFacts.mem_set_eq.
    + apply PyDictMore.mem_set_mono. auto.
Qed.

Lemma members_inv_remove (g : Game) (sid : string) :
  PyDict.wf (players g) -> members_inv g ->
  members_inv (remove_player g sid).
Proof.
  intros Hwf [Hnd Hq].
  destruct (PyDict.get sid (players g)) as [info|] eqn:H.
  2:{ rewrite (remove_player_absent g sid H). now split. }
  rewrite (remove_player_present g sid info H). split.
  - unfold player_names. simpl.
    now apply (PyDictMore.NoDup_map_values_del name).
  - simpl. intros info' Hin.
    rewrite PyDictFacts.mem_del_ne.
    + apply Hq. now apply PyDictMore.values_del_In in Hin.
    + now apply (PyDictMore.NoDup_map_values_del_fresh name sid info
                   (players g)).
Qed.

Lemma members_inv_guess (g g' : Game) (p s : string) (now : Z) (b : bool) :
  members_inv g -> make_guess g p s now = Return (g', b) ->
  members_inv g'.
Proof.
  intros [Hnd Hq] H.
  destruct (PyDict.get p (guesses g)) as [log|] eqn:Hlog.
  - destruct (make_guess_returns g p s now log Hlog)
      as (g1 & Hret & Eq & _ & Ep & _).
    rewrite Hret in H. injection H as <- _.
    unfold members_inv, player_names. rewrite Ep, Eq. split; [exact Hnd|].
    intros info Hin. apply PyDictMore.mem_set_mono. auto.
  - unfold make_guess in H. rewrite Hlog in H. discriminate.
Qed.

Lemma history_inv_add (g : Game) (sid n : string) (now : Z) :
  history_inv g -> started g = false -> history_inv (add_player g sid n now).
Proof.
  intros [Hlobby Hdone] Hs. destruct (Hlobby Hs) as [Hc Hlogs]. split.
  - intros _. split; [exact Hc|]. simpl. intros p log H.
    apply PyDictMore.get_set_Some in H.
    destruct H as [[_ ->]|[_ H]]; eauto.
  - simpl. rewrite Hc. intros p d H. discriminate.
Qed.

Lemma history_inv_remove (g : Game) (sid : string) :
  history_inv g -> history_inv (remove_player g sid).
Proof.
  intros [Hlobby Hdone].
  destruct (PyDict.get sid (players g)) as [info|] eqn:H.
  2:{ rewrite (remove_player_absent g sid H). now split. }
  rewrite (remove_player_present g sid info H). split; simpl.
  - intros Hs. destruct (Hlobby Hs) as [Hc Hlogs]. rewrite Hc. split;
      [reflexivity|].
    intros p log Hp. apply PyDictMore.get_del_Some in Hp.
    destruct Hp as [_ Hp]. eauto.
  - intros p d Hp. apply PyDictMore.get_del_Some in Hp.
    destruct Hp as [Hne Hp]. destruct (Hdone p d Hp) as (log & Hlog & Hn).
    exists log. split; [|exact Hn].
    now rewrite PyDictFacts.get_del_ne.
Qed.

Lemma history_inv_guess (g g' : Game) (p s : string) (now : Z) (b : bool) :
  history_inv g -> started g = true ->
  PyDict.mem p (completed g) = false ->
  make_guess g p s now = Return (g', b) -> history_inv g'.
Proof.
  intros [Hlobby Hdone] Hs Hc H.
  destruct (PyDict.get p (guesses g)) as [log|] eqn:Hlog.
  2:{ unfold make_guess in H. rewrite Hlog in H. discriminate. }
  destruct (make_guess_returns g p s now log Hlog)
    as (g1 & Hret & Eq & _ & _ & Es & _ & Ec).
  rewrite Hret in H. injection H as <- _. split.
  - rewrite Es, Hs. discriminate.
  - rewrite Eq, Ec. intros q d Hq.
    assert (Hold : PyDict.get q (completed g) = Some d ->
                   exists log0,
                     PyDict.get q (PyDict.set p (log ++ [s]) (guesses g)) =
                       Some (log0 ++ [santa d]) /\
                     guess_count d = List.length log0 + 1).
    { intros Hq'. destruct (Hdone q d Hq') as (log0 & H0 & Hn).
      exists log0. split; [|exact Hn].
      rewrite PyDictFacts.get_set_ne; [exact H0|].
      intros ->. apply PyDictFacts.mem_false_get in Hc. congruence. }
    destruct (santa_eqb (find_santa (assignments g) p) s); [|auto].
    apply PyDictMore.get_set_Some in Hq.
    destruct Hq as [[-> ->]|[_ Hq]]; [|auto].
    exists log. simpl. split; [apply PyDictFacts.get_set_eq|].
    now rewrite length_app.
Qed.

(** Every game of every reachable registry satisfies [game_inv]. *)
Lemma reachable_game_inv (games : registry) (rc : string) (g : Game) :
  reachable games -> PyDict.get rc games = Some g -> game_inv g.
Proof.
  apply reachable_preserves.
  - intros sid. split; [apply wf_new_game|]. split.
    + split; [constructor | intros info []].
    + split; [intros _; split; [reflexivity | discriminate] | discriminate].
  - intros g0 sid n now (Hwf & Hm & Hh) Hs Ht. split;
      [now apply wf_add_player|].
    split; [now apply members_inv_add | now apply history_inv_add].
  - intros g0 p q (Hwf & Hm & Hh). split; [now apply wf_set_assignment|].
    split; assumption.
  - intros g0 (Hwf & Hm & [Hlobby Hdone]). split; [exact Hwf|].
    split; [exact Hm|]. split; [discriminate | exact Hdone].
  - intros g0 p s now g' b (Hwf & Hm & Hh) Hs Hc H. split;
      [now apply (wf_make_guess g0 g' p s now b)|].
    split; [now apply (members_inv_guess g0 g' p s now b)|].
    now apply (history_inv_guess g0 g' p s now b).
  - intros g0 sid (Hwf & Hm & Hh). split; [now apply wf_remove_player|].
    split; [apply members_inv_remove; [apply Hwf | exact Hm]|].
    now apply history_inv_remove.
Qed.

Lemma bob_done_is_reachable : reachable [("ABCDEF", bob_done_game)].
Proof. exists bob_done_trace. vm_compute. reflexivity. Qed.

Lemma lobby_is_reachable : reachable lobby_games.
Proof. exists lobby_trace. vm_compute. reflexivity. Qed.

(** In every registry the server can reach, the members of a room have
    pairwise distinct display names: two connections of the same room
    never carry the same name. *)
Theorem member_names_distinct (games : registry) (rc s1 s2 : string)
    (g : Game) (i1 i2 : player_info) :
  reachable games ->
  PyDict.get rc games = Some g ->
  PyDict.get s1 (players g) = Some i1 ->
  PyDict.get s2 (players g) = Some i2 ->
  name i1 = name i2 ->
  s1 = s2.
Proof.
  intros Hr Hg H1 H2 E.
  destruct (reachable_game_inv games rc g Hr Hg) as (_ & [Hnd _] & _).
  apply (PyDictMore.NoDup_map_values_key name s1 s2 i1 i2 (players g));
    auto using PyDictFacts.get_In.
Qed.

Lemma member_names_distinct_witness : "s2" = "s2".
Proof.
  apply (member_names_distinct [("ABCDEF", bob_done_game)] "ABCDEF" "s2" "s2"
           bob_done_game {| name := "Bob"; joined_at := 2%Z |}
           {| name := "Bob"; joined_at := 2%Z |} bob_done_is_reachable);
    reflexivity.
Defined.

(** In every registry the server can reach, a guess made in the name of
    a current member of the room never raises: the name has a guess
    history.  (The [KeyError] of [make_guess] needs a name that is not
    a member.) *)
Theorem member_guess_never_raises (games : registry)
    (rc sid requester s : string) (g : Game) (info : player_info) (now : Z) :
  reachable games ->
  PyDict.get rc games = Some g ->
  PyDict.get sid (players g) = Some info ->
  PyDict.mem (name info) (guesses g) = true /\
  raised (handle_make_guess games requester rc (name info) s now) = None.
Proof.
  intros Hr Hg Hin.
  destruct (reachable_game_inv games rc g Hr Hg) as (_ & [_ Hq] & _).
  assert (Hm : PyDict.mem (name info) (guesses g) = true)
    by (apply Hq; now apply (PyDictMore.get_values sid)).
  split; [exact Hm|].
  apply PyDictFacts.mem_get in Hm. destruct Hm as [log Hlog].
  unfold handle_make_guess. rewrite Hg.
  destruct (negb (started g)); [reflexivity|].
  destruct (PyDict.mem (name info) (completed g)); [reflexivity|].
  destruct (make_guess_returns g (name info) s now log Hlog)
    as (g' & Hret & Eq & _).
  rewrite Hret, Eq, PyDictFacts.get_set_eq.
  now destruct (santa_eqb _ _).
Qed.

Lemma member_guess_never_raises_witness :
  PyDict.mem "Alice" (guesses bob_done_game) = true /\
  raised
    (handle_make_guess [("ABCDEF", bob_done_game)] "s1" "ABCDEF" "Alice"
       "Zed" 8%Z) = None.
Proof.
  apply (member_guess_never_raises [("ABCDEF", bob_done_game)] "ABCDEF" "s1"
           "s1" "Zed" bob_done_game {| name := "Alice"; joined_at := 1%Z |}
           8%Z bob_done_is_reachable);
    reflexivity.
Defined.

(** In every registry the server can reach, a completion record belongs
    to a started game and agrees with the guess history of its player:
    the recorded guess count is the length of the history, it is at
    least one, and the last guess of the history is the recorded
    santa. *)
Theorem completion_matches_history (games : registry) (rc p : string)
    (g : Game) (d : completion) :
  reachable games ->
  PyDict.get rc games = Some g ->
  PyDict.get p (completed g) = Some d ->
  started g = true /\
  1 <= guess_count d /\
  exists log,
    PyDict.get p (guesses g) = Some (log ++ [santa d]) /\
    guess_count d = List.length (log ++ [santa d]).
Proof.
  intros Hr Hg Hd.
  destruct (reachable_game_inv games rc g Hr Hg) as (_ & _ & [Hlobby Hdone]).
  split.
  { destruct (started g); [reflexivity|].
    destruct (Hlobby eq_refl) as [Hc _]. rewrite Hc in Hd. discriminate. }
  destruct (Hdone p d Hd) as (log & Hlog & Hn).
  split; [lia|]. exists log. split; [exact Hlog|].
  rewrite length_app. simpl. exact Hn.
Qed.

Lemma completion_matches_history_witness :
  started bob_done_game = true /\
  1 <= 1 /\
  exists log,
    PyDict.get "Bob" (guesses bob_done_game) = Some (log ++ ["Alice"]) /\
    1 = List.length (log ++ ["Alice"]).
Proof.
  apply (completion_matches_history [("ABCDEF", bob_done_game)] "ABCDEF"
           "Bob" bob_done_game
           {| timestamp := 5%Z; guess_count := 1; santa := "Alice" |}
           bob_done_is_reachable);
    reflexivity.
Defined.

(** In every registry the server can reach, a game that has not started
    has recorded no guess and no completion: its leaderboard is empty
    and it is not complete. *)
Theorem lobby_has_no_history (games : registry) (rc : string) (g : Game) :
  reachable games ->
  PyDict.get rc games = Some g ->
  started g = false ->
  completed g = [] /\
  (forall p log, PyDict.get p (guesses g) = Some log -> log = []) /\
  get_leaderboard g = [] /\
  is_complete g = false.
Proof.
  intros Hr Hg Hs.
  destruct (reachable_game_inv games rc g Hr Hg) as (_ & _ & [Hlobby _]).
  destruct (Hlobby Hs) as [Hc Hlogs].
  split; [exact Hc|]. split; [exact Hlogs|]. split.
  - unfold get_leaderboard, sorted_completed. now rewrite Hc.
  - unfold is_complete. rewrite Hc. now destruct (players g).
Qed.

Lemma lobby_has_no_history_witness :
  completed lobby_game = [] /\
  (forall p log, PyDict.get p (guesses lobby_game) = Some log -> log = []) /\
  get_leaderboard lobby_game = [] /\
  is_complete lobby_game = false.
Proof.
  apply (lobby_has_no_history lobby_games "ABCDEF" lobby_game
           lobby_is_reachable);
    reflexivity.
Defined.

(** ** The leaderboard and the completions *)

Lemma leaderboard_players {k : nat} (l : list (string * completion)) :
  map player (map leaderboard_row_of (enumerate_from k l)) = map fst l.
Proof.
  revert k. induction l as [|[p d] r IH]; intros k; simpl; [reflexivity|].
  now rewrite IH.
Qed.

Lemma leaderboard_row_In (k : nat) (l : list (string * completion))
    (row : leaderboard_row) :
  In row (map leaderboard_row_of (enumerate_from k l)) ->
  exists p d,
    In (p, d) l /\ player row = p /\ row_guesses row = guess_count d /\
    row_santa row = santa d.
Proof.
  revert k. induction l as [|[p d] r IH]; intros k; simpl; [tauto|].
  intros [<-|H].
  - exists p, d. repeat split. now left.
  - destruct (IH (S k) H) as (p' & d' & Hin & Hrest).
    exists p', d'. split; [now right | exact Hrest].
Qed.

(** The leaderboard has one row per completion: its players are exactly
    the names with a completion record, each once, and a row shows the
    guess count and the santa of the record of its player. *)
Theorem leaderboard_lists_completions (g : Game) :
  PyDict.wf (completed g) ->
  List.length (get_leaderboard g) = PyDict.len (completed g) /\
  NoDup (map player (get_leaderboard g)) /\
  (forall p, In p (map player (get_leaderboard g)) <->
             PyDict.mem p (completed g) = true) /\
  (forall row, In row (get_leaderboard g) ->
     exists d,
       PyDict.get (player row) (completed g) = Some d /\
       row_guesses row = guess_count d /\ row_santa row = santa d).
Proof.
  intros Hwf.
  assert (Hperm : Permutation (map fst (sorted_completed g))
                    (PyDict.keys (completed g))).
  { unfold PyDict.keys. apply Permutation_map.
    apply (sorted_perm completion_key). }
  unfold get_leaderboard. split.
  { rewrite <- (length_map rank), enumerate_from_ranks, length_seq.
    - unfold sorted_completed. apply sorted_length.
    - intros i [p d]. reflexivity. }
  rewrite leaderboard_players. split.
  { apply (Permutation_NoDup (Permutation_sym Hperm)). exact Hwf. }
  split.
  { intros p. rewrite PyDictFacts.mem_keys. split; intros H.
    - now apply (Permutation_in _ Hperm).
    - now apply (Permutation_in _ (Permutation_sym Hperm)). }
  intros row Hrow.
  destruct (leaderboard_row_In 0 _ row Hrow) as (p & d & Hin & <- & Hq & Hs).
  exists d. split; [|now split].
  apply (PyDictFacts.In_get _ _ _ Hwf).
  now apply (Permutation_in _ (sorted_perm completion_key _)).
Qed.

Lemma wf_completed_tie : PyDict.wf (completed tie_game).
Proof.
  repeat constructor; simpl; [|tauto].
  intros [H|[]]. discriminate H.
Defined.

Lemma leaderboard_lists_completions_witness :
  List.length (get_leaderboard tie_game) = 2 /\
  NoDup (map player (get_leaderboard tie_game)).
Proof.
  destruct (leaderboard_lists_completions tie_game wf_completed_tie)
    as (H1 & H2 & _).
  split; [exact H1 | exact H2].
Defined.

(** ** Rooms without members, and the room count *)

(** A disconnect never deletes or changes a room that has no member --
    not even the disconnect of its host: a room that was created and
    never joined stays in the registry. *)
Theorem disconnect_keeps_memberless_room (games : registry)
    (sid room_code : string) (g : Game) :
  PyDict.wf games ->
  PyDict.get room_code games = Some g ->
  players g = [] ->
  PyDict.get room_code (games_after (handle_disconnect games sid)) = Some g.
Proof.
  intros Hwf Hg Hp. unfold handle_disconnect.
  destruct (disconnect_scan_cases sid (PyDict.items games) games)
    as [E|(rc0 & g0 & info & Hin & Hget & E)]; rewrite E; [exact Hg|].
  apply (PyDictFacts.In_get _ _ _ Hwf) in Hin.
  assert (Hne : room_code <> rc0).
  { intros ->. rewrite Hin in Hg. injection Hg as ->.
    rewrite Hp in Hget. discriminate. }
  destruct (PyDict.len (players (remove_player g0 sid)) =? 0).
  - now rewrite PyDictFacts.get_del_ne.
  - now rewrite PyDictFacts.get_set_ne.
Qed.

Lemma wf_abcdef_created : PyDict.wf (games_after abcdef_created).
Proof. repeat constructor. simpl. tauto. Defined.

(** The host of a freshly created room disconnects. *)
Lemma disconnect_keeps_memberless_room_witness :
  PyDict.get "ABCDEF"
    (games_after (handle_disconnect (games_after abcdef_created) "host")) =
  Some (new_game "host").
Proof.
  apply (disconnect_keeps_memberless_room (games_after abcdef_created)
           "host" "ABCDEF" (new_game "host") wf_abcdef_created);
    reflexivity.
Defined.

(** The number of rooms that [/health] reports grows by one with every
    room creation, shrinks by at most one with a disconnect, and is
    left unchanged by every other event. *)
Theorem step_room_count (games : registry) (e : event) (r : reply) :
  PyDict.wf games ->
  step games e = Some r ->
  snd (health (games_after r)) = 200 /\
  match e with
  | create_game _ _ =>
      games_count (fst (health (games_after r))) =
        S (games_count (fst (health games)))
  | disconnect _ =>
      games_count (fst (health (games_after r))) =
        games_count (fst (health games)) \/
      S (games_count (fst (health (games_after r)))) =
        games_count (fst (health games))
  | _ =>
      games_count (fst (health (games_after r))) =
        games_count (fst (health games))
  end.
Proof.
  intros Hwf Hstep. split; [reflexivity|]. simpl.
  assert (Hset : forall rc g0 g1,
             PyDict.get rc games = Some g0 ->
             PyDict.len (PyDict.set rc g1 games) = PyDict.len games).
  { intros rc g0 g1 H. rewrite PyDictFacts.len_set.
    unfold PyDict.mem. now rewrite H. }
  destruct e as [sid draws | sid rc p now | sid rc p q | sid rc
                | sid rc p s now | sid rc | sid]; simpl in Hstep.
  - unfold handle_create_game in Hstep.
    destruct (fresh_code games draws) as [code|] eqn:Hc; [|discriminate].
    injection Hstep as <-. simpl. rewrite PyDictFacts.len_set.
    apply fresh_code_sound in Hc. now rewrite (proj1 Hc).
  - injection Hstep as <-. unfold handle_join_game.
    destruct (PyDict.get (upper rc) games) as [g0|] eqn:H0; [|reflexivity].
    destruct (started g0); [reflexivity|].
    destruct (name_taken _ _); [reflexivity|]. simpl. eauto.
  - injection Hstep as <-. unfold handle_submit_assignment.
    destruct (PyDict.get rc games) as [g0|] eqn:H0; [|reflexivity].
    simpl. eauto.
  - injection Hstep as <-. unfold handle_start_game.
    destruct (PyDict.get rc games) as [g0|] eqn:H0; [|reflexivity].
    destruct (negb (String.eqb sid (host_id g0))); [reflexivity|].
    destruct (negb _); [reflexivity|]. simpl. eauto.
  - injection Hstep as <-. unfold handle_make_guess.
    destruct (PyDict.get rc games) as [g0|] eqn:H0; [|reflexivity].
    destruct (negb (started g0)); [reflexivity|].
    destruct (PyDict.mem p (completed g0)); [reflexivity|].
    destruct (make_guess g0 p s now) as [[g1 b]|ex]; [|reflexivity].
    destruct (PyDict.get p (guesses g1)); [destruct b|]; simpl; eauto.
  - injection Hstep as <-. unfold handle_get_game_state.
    now destruct (PyDict.get rc games).
  - injection Hstep as <-. unfold handle_disconnect.
    destruct (disconnect_scan_cases sid (PyDict.items games) games)
      as [E|(rc0 & g0 & info & Hin & Hget & E)]; rewrite E; [now left|].
    apply (PyDictFacts.In_get _ _ _ Hwf) in Hin.
    destruct (PyDict.len (players (remove_player g0 sid)) =? 0).
    + right. apply PyDictFacts.len_del_present; [exact Hwf|].
      apply PyDictFacts.mem_get. eauto.
    + left. eauto.
Qed.

(** Alice, the only member of her room, disconnects: one room less. *)
Lemma step_room_count_witness :
  snd (health (games_after (handle_disconnect alice_games "s1"))) = 200 /\
  (games_count (fst (health (games_after
                               (handle_disconnect alice_games "s1")))) =
     games_count (fst (health alice_games)) \/
   S (games_count (fst (health (games_after
                                  (handle_disconnect alice_games "s1"))))) =
     games_count (fst (health alice_games))).
Proof.
  apply (step_room_count alice_games (disconnect "s1")).
  - repeat constructor. simpl. tauto.
  - reflexivity.
Defined.

(** ** The member list after a join *)

Lemma values_set_absent {V : Type} (k : string) (v : V) (d : PyDict.dict V) :
  PyDict.mem k d = false ->
  PyDict.values (PyDict.set k v d) = PyDict.values d ++ [v].
Proof.
  unfold PyDict.mem, PyDict.values.
  induction d as [|[k0 v0] r IH]; simpl; [reflexivity|].
  destruct (String.eqb_spec k k0) as [->|Hne]; [discriminate|].
  intros H. simpl. now rewrite IH.
Qed.

(** When a connection that is not yet in the room joins under a free
    name, the member list sent to the room is the previous list with
    the new name at its end, and the count is one more than before. *)
Theorem join_appends_to_player_list (games : registry)
    (sid room_code p : string) (now : Z) (game : Game) :
  PyDict.get (upper room_code) games = Some game ->
  started game = false ->
  name_taken (PyDict.values (players game)) p = false ->
  PyDict.mem sid (players game) = false ->
  emitted (handle_join_game games sid room_code p now) =
    [JoinRoom sid (upper room_code);
     Emit (ToRequester sid) (joined_game (upper room_code) p);
     Emit (ToRoom (upper room_code))
       (player_list_update (player_names game ++ [p])
          (S (PyDict.len (players game))))].
Proof.
  intros Hg Hs Ht Hm. unfold handle_join_game. rewrite Hg, Hs, Ht. simpl.
  unfold player_names. simpl. rewrite (values_set_absent _ _ _ Hm).
  rewrite map_app, length_app, length_map. simpl.
  unfold PyDict.len, PyDict.values. rewrite length_map.
  now rewrite Nat.add_1_r.
Qed.

(** Carol joins the lobby of Alice and Bob. *)
Lemma join_appends_to_player_list_witness :
  emitted (handle_join_game lobby_games "s3" "abcdef" "Carol" 3%Z) =
    [JoinRoom "s3" "ABCDEF";
     Emit (ToRequester "s3") (joined_game "ABCDEF" "Carol");
     Emit (ToRoom "ABCDEF")
       (player_list_update ["Alice"; "Bob"; "Carol"] 3)].
Proof.
  apply (join_appends_to_player_list lobby_games "s3" "abcdef" "Carol" 3%Z
           lobby_game);
    reflexivity.
Defined.
